(** * The mgr self-test module: control surface and workload coordinator

    A shallow embedding of [src/mgr/selftest/module.py] (class [Module]).

    The module has two sides.  [handle_command] runs on the thread the host
    dispatches administrative commands on; it is sequential code and is
    embedded in a state-and-exception monad [M] that also records every
    access to the two shared attributes [_workload] and [_event] and every
    call into the host.  [serve] and [_command_spam] run on the dedicated
    background thread and block on the event; they are embedded as a small-step
    machine with one program point per source line that touches the shared
    attributes or the host, interleaved with the writes of the command
    thread. *)

From Stdlib Require Import ZArith QArith String List Bool Lia.
From stdpp Require Import base option list gmap strings pretty relations.

Import ListNotations.
Set Warnings "-register-all".
Local Open Scope Z_scope.
Local Open Scope string_scope.

(** ** Python values exchanged with the host *)

(** The values the module passes to and receives from the [MgrModule]
    interface: [None], booleans, integers, strings, lists (tuples are read
    through the same positional interface), dictionaries with string keys
    (kept as association lists, first binding wins) and opaque host objects
    ([OSDMap], [CRUSHMap], [CommandResult], ...) named by a handle. *)
Inductive pyval : Type :=
| PNone
| PBool (b : bool)
| PInt (z : Z)
| PStr (s : string)
| PList (l : list pyval)
| PDict (d : list (string * pyval))
| PObj (h : N).

Fixpoint assoc {A : Type} (k : string) (d : list (string * A)) : option A :=
  match d with
  | [] => None
  | (k', v) :: d' => if String.eqb k k' then Some v else assoc k d'
  end.

(** Python's [==] on these values: booleans are the integers 0 and 1,
    lists compare position by position, dictionaries compare as mappings. *)
Fixpoint py_eq (a b : pyval) {struct a} : bool :=
  match a, b with
  | PNone, PNone => true
  | PBool x, PBool y => Bool.eqb x y
  | PBool x, PInt y => Z.eqb (Z.b2z x) y
  | PInt x, PBool y => Z.eqb x (Z.b2z y)
  | PInt x, PInt y => Z.eqb x y
  | PStr x, PStr y => String.eqb x y
  | PList xs, PList ys =>
      (fix go (xs ys : list pyval) {struct xs} : bool :=
         match xs, ys with
         | [], [] => true
         | x :: xs', y :: ys' => py_eq x y && go xs' ys'
         | _, _ => false
         end) xs ys
  | PDict d1, PDict d2 =>
      (fix sub (d : list (string * pyval)) {struct d} : bool :=
         match d with
         | [] => true
         | (k, v) :: d' =>
             match assoc k d2 with
             | Some v' => py_eq v v'
             | None => false
             end && sub d'
         end) d1
      && forallb (fun kv => match assoc (fst kv) d1 with
                            | Some _ => true
                            | None => false
                            end) d2
  | PObj h1, PObj h2 => N.eqb h1 h2
  | _, _ => false
  end.

(** ** Exceptions *)

(** An exception instance: the names of the classes on the method resolution
    order of its class (most specific first) and its message.  [except C]
    catches an instance when [C] is on that list. *)
Record exn : Type := Exn { exn_mro : list string; exn_msg : string }.

Definition isinstance (e : exn) (cls : string) : bool :=
  existsb (String.eqb cls) (exn_mro e).

Definition KeyError (msg : string) : exn :=
  Exn ["KeyError"; "LookupError"; "Exception"; "BaseException"] msg.
Definition IndexError (msg : string) : exn :=
  Exn ["IndexError"; "LookupError"; "Exception"; "BaseException"] msg.
Definition TypeError (msg : string) : exn :=
  Exn ["TypeError"; "Exception"; "BaseException"] msg.
Definition AssertionError (msg : string) : exn :=
  Exn ["AssertionError"; "Exception"; "BaseException"] msg.
Definition RuntimeError (msg : string) : exn :=
  Exn ["RuntimeError"; "Exception"; "BaseException"] msg.
Definition ImportError (msg : string) : exn :=
  Exn ["ImportError"; "Exception"; "BaseException"] msg.
Definition NameError (msg : string) : exn :=
  Exn ["NameError"; "Exception"; "BaseException"] msg.
Definition AttributeError (msg : string) : exn :=
  Exn ["AttributeError"; "Exception"; "BaseException"] msg.
Definition ValueError (msg : string) : exn :=
  Exn ["ValueError"; "Exception"; "BaseException"] msg.

(** The result of running a piece of Python: a value, or a raised
    exception that nothing on the way caught. *)
Inductive outcome (A : Type) : Type :=
| Ret (a : A)
| Raise (e : exn).
Arguments Ret {A} a.
Arguments Raise {A} e.

Definition is_ret {A : Type} (o : outcome A) : bool :=
  match o with Ret _ => true | Raise _ => false end.

(** ** Built-ins used by the module *)

Definition py_getitem_str (o : pyval) (k : string) : outcome pyval :=
  match o with
  | PDict d =>
      match assoc k d with
      | Some v => Ret v
      | None => Raise (KeyError k)
      end
  | _ => Raise (TypeError "object is not subscriptable by a string")
  end.

(** [l[0]] on a native list. *)
Definition py_first {A : Type} (l : list A) : outcome A :=
  match l with
  | x :: _ => Ret x
  | [] => Raise (IndexError "list index out of range")
  end.

Definition py_len (o : pyval) : outcome Z :=
  match o with
  | PStr s => Ret (Z.of_nat (String.length s))
  | PList l => Ret (Z.of_nat (List.length l))
  | PDict d => Ret (Z.of_nat (List.length d))
  | _ => Raise (TypeError "object has no len()")
  end.

Fixpoint chars (s : string) : list pyval :=
  match s with
  | EmptyString => []
  | String c s' => PStr (String c EmptyString) :: chars s'
  end.

(** The keys of a dictionary, each once. *)
Definition dict_keys (d : list (string * pyval)) : list string :=
  remove_dups (map fst d).

(** [d.keys()]. *)
Definition py_keys (o : pyval) : outcome (list string) :=
  match o with
  | PDict d => Ret (dict_keys d)
  | _ => Raise (AttributeError "object has no attribute 'keys'")
  end.

(** The items a [for] loop (or [set(...)], [list(...)]) draws from a value. *)
Definition py_iter (o : pyval) : outcome (list pyval) :=
  match o with
  | PList l => Ret l
  | PDict d => Ret (map PStr (dict_keys d))
  | PStr s => Ret (chars s)
  | _ => Raise (TypeError "object is not iterable")
  end.

Definition hashable (v : pyval) : bool :=
  match v with
  | PList _ | PDict _ => false
  | _ => true
  end.

Definition py_in (x : pyval) (l : list pyval) : bool := existsb (py_eq x) l.

Fixpoint py_dedup (l : list pyval) : list pyval :=
  match l with
  | [] => []
  | x :: l' => if py_in x l' then py_dedup l' else x :: py_dedup l'
  end.

(** [set(iterable)]: the distinct items, as a list in no particular order;
    unhashable items are a [TypeError]. *)
Definition py_set (items : list pyval) : outcome (list pyval) :=
  if forallb hashable items then Ret (py_dedup items)
  else Raise (TypeError "unhashable type").

(** [a - b] on sets. *)
Definition py_set_diff (a b : list pyval) : list pyval :=
  List.filter (fun x => negb (py_in x b)) a.

(** Sets of strings ([set(keys)], [{"a", "b"} | s]): duplicate-free lists. *)
Definition str_set (l : list string) : list string := remove_dups l.

Definition str_set_union (a b : list string) : list string :=
  remove_dups (a ++ b).

(** [type(v).__name__] for the values whose class is known here. *)
Definition py_type_name (v : pyval) : option string :=
  match v with
  | PNone => Some "NoneType"
  | PBool _ => Some "bool"
  | PInt _ => Some "int"
  | PStr _ => Some "str"
  | PList _ => Some "list"
  | PDict _ => Some "dict"
  | PObj _ => None
  end.

(** [a, b, c = v], with the messages of CPython 3: too few items, too many
    items, and a value that cannot be iterated. *)
Definition py_unpack3 (v : pyval) : outcome (pyval * pyval * pyval) :=
  match py_iter v with
  | Ret [a; b; c] => Ret (a, b, c)
  | Ret items =>
      if (List.length items <? 3)%nat then
        Raise (ValueError ("not enough values to unpack (expected 3, got "
                           +:+ pretty (List.length items) +:+ ")"))
      else Raise (ValueError "too many values to unpack (expected 3)")
  | Raise e =>
      match py_type_name v with
      | Some n =>
          Raise (TypeError ("cannot unpack non-iterable " +:+ n +:+ " object"))
      | None => Raise e
      end
  end.

(** [sorted] on a list of strings (code-point order). *)
Fixpoint insert_sorted (s : string) (l : list string) : list string :=
  match l with
  | [] => [s]
  | t :: l' => if String.leb s t then s :: l else t :: insert_sorted s l'
  end.

Definition sort_strings (l : list string) : list string :=
  fold_right insert_sorted [] l.

Definition obind {A B : Type} (o : outcome A) (k : A -> outcome B)
  : outcome B :=
  match o with
  | Ret a => k a
  | Raise e => Raise e
  end.

(** [[m['name'] for m in ms]]. *)
Fixpoint module_names (ms : list pyval) : outcome (list pyval) :=
  match ms with
  | [] => Ret []
  | m :: ms' =>
      obind (py_getitem_str m "name") (fun n =>
      obind (module_names ms') (fun ns =>
      Ret (n :: ns)))
  end.

(** Lines 224-225 of [_test_remote_calls]: the names under
    ['available_modules'] that are not under ['modules'], as a set. *)
Definition disabled_modules_of (mgr_map : pyval) : outcome (list pyval) :=
  obind (py_getitem_str mgr_map "available_modules") (fun avail =>
  obind (py_iter avail) (fun avail_items =>
  obind (module_names avail_items) (fun all_modules =>
  obind (py_set all_modules) (fun all_set =>
  obind (py_getitem_str mgr_map "modules") (fun enabled =>
  obind (py_iter enabled) (fun enabled_items =>
  obind (py_set enabled_items) (fun enabled_set =>
  Ret (py_set_diff all_set enabled_set)))))))).

(** ** The environment of the module *)

(** What a call names: a method or attribute of the [MgrModule] base class
    ([self.get_osdmap()]), a method of a host object ([osdmap.dump()]), or a
    constructor of the host library ([CommandResult('')]). *)
Inductive target : Type :=
| Self (name : string)
| Meth (obj : pyval) (name : string)
| New (cls : string).

(** The argument of [json.dumps] in [_command_spam]. *)
Inductive json (F : Type) : Type :=
| JStr (s : string)
| JInt (z : Z)
| JFloat (f : F)
| JObj (fields : list (string * json F)).
Arguments JStr {F} s.
Arguments JInt {F} z.
Arguments JFloat {F} f.
Arguments JObj {F} fields.

(** Everything the module borrows and this file does not define: the
    host behind the [MgrModule] interface (a state and one transition per
    call, which returns or raises), Python's floats and the [random] and
    [json] modules, [repr] of containers and host objects, and the order in
    which a set lists its members. *)
Class Runtime : Type := {
  hstate : Type;
  host_call : target -> list pyval -> hstate -> outcome pyval * hstate;
  float : Type;
  rng : Type;
  random_random : rng -> float * rng;
  float_mul_int : float -> Z -> float;
  int_of_float : float -> Z;
  json_dumps : json float -> string;
  py_repr : pyval -> string;
  set_order : forall A : Type, list A -> list A;
  set_order_perm : forall (A : Type) (l : list A), set_order A l ≡ₚ l
}.

(** ** Shared state, effects and the monad *)

(** What a thread does to the shared attributes and to the host, in program
    order: reading and assigning [self._workload]; [set()], [clear()],
    [is_set()] (with its answer) and a returned [wait()] on [self._event]; a
    call into the host with its arguments and its outcome; a line written
    with [self.log.info]. *)
Inductive effect : Type :=
| ERead (v : option string)
| EWrite (v : option string)
| ESet
| EClear
| EIsSet (b : bool)
| EWait
| ECall (t : target) (args : list pyval) (r : outcome pyval)
| ELog (msg : string).

Section Module.
Context {RT : Runtime}.

(** What a piece of the module runs against: the two shared attributes
    ([self._workload] is [None] or a string, [self._event] is a
    [threading.Event], set or cleared), the state of the host, the state of
    the random generator, and the effects performed so far by the thread
    that runs the code. *)
Record world : Type := World {
  _workload : option string;
  _event : bool;
  host : hstate;
  gen : rng;
  trace : list effect
}.

(** [__init__]: no workload requested, event cleared. *)
Definition __init__ (h : hstate) (g : rng) : world := World None false h g [].

Definition emit (e : effect) (w : world) : world :=
  World (_workload w) (_event w) (host w) (gen w) (trace w ++ [e]).

Definition M (A : Type) : Type := world -> outcome A * world.

Definition ret {A : Type} (a : A) : M A := fun w => (Ret a, w).

Definition raise {A : Type} (e : exn) : M A := fun w => (Raise e, w).

Definition bind {A B : Type} (m : M A) (k : A -> M B) : M B :=
  fun w =>
    match m w with
    | (Ret a, w') => k a w'
    | (Raise e, w') => (Raise e, w')
    end.

Definition lift {A : Type} (o : outcome A) : M A := fun w => (o, w).

Notation "'let*' x ':=' m 'in' k" := (bind m (fun x => k))
  (at level 10, x pattern, m at level 100, k at level 200).
Notation "m ';;;' k" := (bind m (fun _ => k))
  (at level 100, k at level 200, right associativity).

Definition read_workload : M (option string) :=
  fun w => (Ret (_workload w), emit (ERead (_workload w)) w).

Definition write_workload (v : option string) : M unit :=
  fun w => (Ret tt, emit (EWrite v)
                      (World v (_event w) (host w) (gen w) (trace w))).

Definition event_set : M unit :=
  fun w => (Ret tt, emit ESet
                      (World (_workload w) true (host w) (gen w) (trace w))).

Definition event_clear : M unit :=
  fun w => (Ret tt, emit EClear
                      (World (_workload w) false (host w) (gen w) (trace w))).

Definition event_is_set : M bool :=
  fun w => (Ret (_event w), emit (EIsSet (_event w)) w).

Definition log_info (msg : string) : M unit :=
  fun w => (Ret tt, emit (ELog msg) w).

Definition call (t : target) (args : list pyval) : M pyval :=
  fun w =>
    let '(r, h) := host_call t args (host w) in
    (r, emit (ECall t args r)
          (World (_workload w) (_event w) h (gen w) (trace w))).

Definition random : M float :=
  fun w =>
    let '(f, g) := random_random (gen w) in
    (Ret f, World (_workload w) (_event w) (host w) g (trace w)).

Definition py_assert (b : bool) : M unit :=
  if b then ret tt else raise (AssertionError "").

(** [try: body / except cls: pass / else: raise RuntimeError(msg)]. *)
Definition expect_raises (cls : string) (body : M pyval) (msg : string)
  : M unit :=
  fun w =>
    match body w with
    | (Raise e, w') => if isinstance e cls then (Ret tt, w') else (Raise e, w')
    | (Ret _, w') => (Raise (RuntimeError msg), w')
    end.

Fixpoint for_each {A : Type} (items : list A) (body : A -> M unit) : M unit :=
  match items with
  | [] => ret tt
  | x :: rest => body x ;;; for_each rest body
  end.

Definition for_in (o : pyval) (body : pyval -> M unit) : M unit :=
  let* items := lift (py_iter o) in for_each items body.

(** [str(v)]. *)
Definition py_str (v : pyval) : string :=
  match v with
  | PNone => "None"
  | PBool true => "True"
  | PBool false => "False"
  | PInt z => pretty z
  | PStr s => s
  | _ => py_repr v
  end.

(** Truth value of [self._workload]. *)
Definition truthy (v : option string) : bool :=
  match v with
  | None => false
  | Some s => negb (String.eqb s "")
  end.

(** ** Class attributes *)

Definition WORKLOAD_COMMAND_SPAM : string := "command_spam".
Definition WORKLOAD_THROW_EXCEPTION : string := "throw_exception".
Definition SHUTDOWN : string := "shutdown".

Definition WORKLOADS : list string :=
  [WORKLOAD_COMMAND_SPAM; WORKLOAD_THROW_EXCEPTION].

(** [errno.EINVAL]. *)
Definition EINVAL : Z := 22.

(** ** The self-test procedures *)

Definition _self_test_getters : M unit :=
  call (Self "version") [] ;;;
  call (Self "get_context") [] ;;;
  call (Self "get_mgr_id") [] ;;;
  let objects :=
    ["fs_map"; "osdmap_crush_map_text"; "osd_map"; "config"; "mon_map";
     "service_map"; "osd_metadata"; "pg_summary"; "pg_status"; "pg_dump";
     "df"; "osd_stats"; "health"; "mon_status"; "mgr_map"] in
  for_each objects (fun obj => call (Self "get") [PStr obj] ;;; ret tt) ;;;
  let* servers := call (Self "list_servers") [] in
  for_in servers (fun server =>
    let* hostname := lift (py_getitem_str server "hostname") in
    call (Self "get_server") [hostname] ;;; ret tt) ;;;
  let* osdmap := call (Self "get") [PStr "osd_map"] in
  let* osds := lift (py_getitem_str osdmap "osds") in
  for_in osds (fun o =>
    let* osd_id := lift (py_getitem_str o "osd") in
    call (Self "get_metadata") [PStr "osd"; PStr (py_str osd_id)] ;;; ret tt) ;;;
  call (Self "get_daemon_status") [PStr "osd"; PStr "0"] ;;;
  ret tt.

Definition _self_test_config : M unit :=
  call (Self "set_config") [PStr "testkey"; PStr "testvalue"] ;;;
  let* v := call (Self "get_config") [PStr "testkey"] in
  py_assert (py_eq v (PStr "testvalue")) ;;;
  call (Self "set_localized_config") [PStr "testkey"; PStr "testvalue"] ;;;
  let* v := call (Self "get_localized_config") [PStr "testkey"] in
  py_assert (py_eq v (PStr "testvalue")).

Definition _self_test_store : M unit :=
  let* d := call (Self "get_store_prefix") [PStr "test"] in
  let* ks := lift (py_keys d) in
  let existing_keys := str_set ks in
  call (Self "set_store") [PStr "testkey"; PStr "testvalue"] ;;;
  let* v := call (Self "get_store") [PStr "testkey"] in
  py_assert (py_eq v (PStr "testvalue")) ;;;
  call (Self "set_store_json")
       [PStr "testjsonkey"; PDict [("testblob", PInt 2)]] ;;;
  let* v := call (Self "get_store_json") [PStr "testjsonkey"] in
  py_assert (py_eq v (PDict [("testblob", PInt 2)])) ;;;
  let* d := call (Self "get_store_prefix") [PStr "test"] in
  let* ks := lift (py_keys d) in
  py_assert
    (bool_decide
       (sort_strings ks
        = sort_strings
            (set_order string
               (str_set_union (str_set ["testkey"; "testjsonkey"])
                              existing_keys)))).

Definition _self_test_perf_counters : M unit :=
  call (Self "get_perf_schema") [PStr "osd"; PStr "0"] ;;;
  call (Self "get_counter") [PStr "osd"; PStr "0"; PStr "osd.op"] ;;;
  ret tt.

Definition _self_test_misc : M unit :=
  call (Self "set_uri") [PStr "http://this.is.a.test.com"] ;;;
  call (Self "set_health_checks") [PDict []] ;;;
  ret tt.

Definition _self_test_osdmap : M unit :=
  let* osdmap := call (Self "get_osdmap") [] in
  call (Meth osdmap "get_epoch") [] ;;;
  call (Meth osdmap "get_crush_version") [] ;;;
  call (Meth osdmap "dump") [] ;;;
  let* inc := call (Meth osdmap "new_incremental") [] in
  call (Meth osdmap "apply_incremental") [inc] ;;;
  call (Meth inc "get_epoch") [] ;;;
  call (Meth inc "dump") [] ;;;
  let* crush := call (Meth osdmap "get_crush") [] in
  call (Meth crush "dump") [] ;;;
  call (Meth crush "get_item_name") [PInt (-1)] ;;;
  call (Meth crush "get_item_weight") [PInt (-1)] ;;;
  call (Meth crush "find_takes") [] ;;;
  call (Meth crush "get_take_weight_osd_map") [PInt (-1)] ;;;
  log_info "Finished self-test procedure.".

Definition _self_test : M unit :=
  log_info "Running self-test procedure..." ;;;
  _self_test_osdmap ;;;
  _self_test_getters ;;;
  _self_test_config ;;;
  _self_test_store ;;;
  _self_test_misc ;;;
  _self_test_perf_counters.

(** ** The cross-module call test *)

Definition self_test_cmd : pyval := PDict [("prefix", PStr "influx self-test")].

Definition _test_remote_calls : M unit :=
  call (Self "remote")
       [PStr "influx"; PStr "handle_command"; PStr ""; self_test_cmd] ;;;
  let* mgr_map := call (Self "get") [PStr "mgr_map"] in
  let* disabled_modules := lift (disabled_modules_of mgr_map) in
  let* disabled_module := lift (py_first (set_order pyval disabled_modules)) in
  expect_raises "ImportError"
    (call (Self "remote")
          [disabled_module; PStr "handle_command"; self_test_cmd])
    "ImportError not raised for disabled module" ;;;
  expect_raises "ImportError"
    (call (Self "remote")
          [PStr "idontexist"; PStr "handle_command"; self_test_cmd])
    "ImportError not raised for nonexistent module" ;;;
  expect_raises "NameError"
    (call (Self "remote")
          [PStr "influx"; PStr "idontexist"; self_test_cmd])
    "KeyError not raised".

(** ** The control surface *)

(** [command[k]] on the command dictionary; its values are [CephString]s. *)
Definition command_get (command : gmap string string) (k : string) : M string :=
  match command !! k with
  | Some v => ret v
  | None => raise (KeyError k)
  end.

Definition prefix_is (command : gmap string string) (p : string) : M bool :=
  let* v := command_get command "prefix" in ret (String.eqb v p).

Definition handle_command (inbuf : string) (command : gmap string string)
  : M (Z * string * string) :=
  let* c := prefix_is command "mgr self-test run" in
  if c then
    _self_test ;;;
    ret (0, "", "Self-test succeeded")
  else
  let* c := prefix_is command "mgr self-test background start" in
  if c then
    let* wl := command_get command "workload" in
    if negb (existsb (String.eqb wl) WORKLOADS) then
      let* wl := command_get command "workload" in
      ret (- EINVAL, "", "Workload not found '" +:+ wl +:+ "'")
    else
      let* wl := command_get command "workload" in
      write_workload (Some wl) ;;;
      event_set ;;;
      let* cur := read_workload in
      ret (0, "", "Running `" +:+ from_option id "None" cur
                  +:+ "` in background")
  else
  let* c := prefix_is command "mgr self-test background stop" in
  if c then
    let* cur := read_workload in
    if truthy cur then
      let* was_running := read_workload in
      write_workload None ;;;
      event_set ;;;
      ret (0, "", "Stopping background workload `"
                  +:+ from_option id "None" was_running +:+ "`")
    else
      ret (0, "", "No background workload was running")
  else
  let* c := prefix_is command "mgr self-test config get" in
  if c then
    let* key := command_get command "key" in
    let* v := call (Self "get_config") [PStr key] in
    ret (0, py_str v, "")
  else
  let* c := prefix_is command "mgr self-test config get_localized" in
  if c then
    let* key := command_get command "key" in
    let* v := call (Self "get_localized_config") [PStr key] in
    ret (0, py_str v, "")
  else
  let* c := prefix_is command "mgr self-test remote" in
  if c then
    _test_remote_calls ;;;
    ret (0, "", "Successfully called")
  else
    let* p := command_get command "prefix" in
    ret (- EINVAL, "", "Command not found '" +:+ p +:+ "'").

Definition shutdown : M unit :=
  write_workload (Some SHUTDOWN) ;;;
  event_set.

(** ** The workload coordinator: [serve] and [_command_spam] *)

(** Program points of the background thread.  Each one is a source line of
    [serve] or [_command_spam] that reads or writes a shared attribute or
    calls the host; local variables that are still live are carried along. *)
Inductive pc : Type :=
| Top                                         (* 279 *)
| TestShutdown                                (* 281 *)
| TestThrow                                   (* 284 *)
| Idle                                        (* 288 *)
| Woken                                       (* 289 *)
| SpamEnter                                   (* 256 *)
| SpamCheck                                   (* 257 *)
| SpamOsdmap                                  (* 258 *)
| SpamDump (osdmap : pyval)                   (* 259 *)
| SpamPick (osdmap dump : pyval)              (* 260-262 *)
| SpamResult (osdmap : pyval) (i : Z) (w : float)              (* 264 *)
| SpamSend (osdmap : pyval) (i : Z) (w : float) (result : pyval) (* 265 *)
| SpamCrush (osdmap result : pyval)           (* 271, get_crush() *)
| SpamCrushDump (result crush : pyval)        (* 271, dump() *)
| SpamAwait (result : pyval)                  (* 272 *)
| SpamClear                                   (* 274 *)
| SpamLeave                                   (* 275 *)
| Exited
| Crashed (e : exn).

Definition workload_is (v : option string) (name : string) : bool :=
  match v with
  | Some s => String.eqb s name
  | None => false
  end.

(** [self._event.wait()], once the event is set. *)
Definition event_wait : M unit := fun w => (Ret tt, emit EWait w).

Definition reweight_command (i : Z) (w : float) : string :=
  json_dumps (JObj [("prefix", JStr "osd reweight");
                    ("id", JInt i);
                    ("weight", JFloat w)]).

(** The code at a program point, returning the point it continues at. *)
Definition line (p : pc) : M pc :=
  match p with
  | Top =>
      let* v := read_workload in
      if workload_is v WORKLOAD_COMMAND_SPAM then ret SpamEnter
      else ret TestShutdown
  | TestShutdown =>
      let* v := read_workload in
      if workload_is v SHUTDOWN then
        log_info "Shutting down..." ;;; ret Exited
      else ret TestThrow
  | TestThrow =>
      let* v := read_workload in
      if workload_is v WORKLOAD_THROW_EXCEPTION then
        raise (RuntimeError "Synthetic exception in serve")
      else
        log_info "Waiting for workload request..." ;;; ret Idle
  | Idle => event_wait ;;; ret Woken
  | Woken => event_clear ;;; ret Top
  | SpamEnter => log_info "Starting command_spam workload..." ;;; ret SpamCheck
  | SpamCheck =>
      let* b := event_is_set in
      if negb b then ret SpamOsdmap else ret SpamClear
  | SpamOsdmap =>
      let* osdmap := call (Self "get_osdmap") [] in ret (SpamDump osdmap)
  | SpamDump osdmap =>
      let* dump := call (Meth osdmap "dump") [] in ret (SpamPick osdmap dump)
  | SpamPick osdmap dump =>
      let* osds := lift (py_getitem_str dump "osds") in
      let* count := lift (py_len osds) in
      let* r := random in
      let i := int_of_float (float_mul_int r count) in
      let* w := random in
      ret (SpamResult osdmap i w)
  | SpamResult osdmap i w =>
      let* result := call (New "CommandResult") [PStr ""] in
      ret (SpamSend osdmap i w result)
  | SpamSend osdmap i w result =>
      call (Self "send_command")
           [result; PStr "mon"; PStr ""; PStr (reweight_command i w); PStr ""] ;;;
      ret (SpamCrush osdmap result)
  | SpamCrush osdmap result =>
      let* crush := call (Meth osdmap "get_crush") [] in
      ret (SpamCrushDump result crush)
  | SpamCrushDump result crush =>
      call (Meth crush "dump") [] ;;; ret (SpamAwait result)
  | SpamAwait result =>
      let* t := call (Meth result "wait") [] in
      lift (py_unpack3 t) ;;;
      ret SpamCheck
  | SpamClear => event_clear ;;; ret SpamLeave
  | SpamLeave => log_info "Ended command_spam workload..." ;;; ret Top
  | Exited => ret Exited
  | Crashed e => ret (Crashed e)
  end.

(** Whether the thread can take a step: not after [break] or an uncaught
    exception, and not inside [wait()] while the event is cleared. *)
Definition enabled (p : pc) (w : world) : bool :=
  match p with
  | Exited | Crashed _ => false
  | Idle => _event w
  | _ => true
  end.

(** One step of the background thread; an exception raised by the line is
    not caught anywhere in [serve] and ends the thread. *)
Definition coord_step (p : pc) (w : world) : option (pc * world) :=
  if enabled p w then
    match line p w with
    | (Ret p', w') => Some (p', w')
    | (Raise e, w') => Some (Crashed e, w')
    end
  else None.

(** [n] steps of the background thread with nothing else running. *)
Fixpoint run (n : nat) (p : pc) (w : world) : pc * world :=
  match n with
  | O => (p, w)
  | S n' =>
      match coord_step p w with
      | Some (p', w') => run n' p' w'
      | None => (p, w)
      end
  end.

(** What the other threads can do between two steps of the background
    thread: the command thread assigns [_workload] or sets the event (the
    only place that clears it is the background thread itself), and the host
    state moves on. *)
Inductive interference : world -> world -> Prop :=
| interf_write w v :
    interference w (World v (_event w) (host w) (gen w) (trace w))
| interf_set w :
    interference w (World (_workload w) true (host w) (gen w) (trace w))
| interf_host w h :
    interference w (World (_workload w) (_event w) h (gen w) (trace w)).

(** A step of the whole system, seen from the background thread. *)
Inductive step : pc * world -> pc * world -> Prop :=
| step_coord p w p' w' :
    coord_step p w = Some (p', w') -> step (p, w) (p', w')
| step_interf p w w' :
    interference w w' -> step (p, w) (p, w').

(** ** Observations on worlds and traces *)

(** The two attributes the threads share. *)
Definition shared (w : world) : option string * bool :=
  (_workload w, _event w).

(** Effects that leave both shared attributes alone and do not even read
    them: calls into the host and log lines. *)
Definition host_only (e : effect) : bool :=
  match e with
  | ECall _ _ _ | ELog _ => true
  | _ => false
  end.

(** Effects that do not change a shared attribute. *)
Definition no_sync (e : effect) : bool :=
  match e with
  | EWrite _ | ESet | EClear => false
  | _ => true
  end.

(** Program order of writes and signals in a piece of trace: every
    assignment to [_workload] is directly followed by [set()], and no
    [set()] occurs anywhere else. *)
Fixpoint write_then_signal (d : list effect) : bool :=
  match d with
  | [] => true
  | EWrite _ :: ESet :: d' => write_then_signal d'
  | EWrite _ :: _ => false
  | ESet :: _ => false
  | _ :: d' => write_then_signal d'
  end.

(** A computation that only talks to the host. *)
Definition quiet {A : Type} (m : M A) : Prop :=
  forall w,
    shared (snd (m w)) = shared w /\
    exists d, trace (snd (m w)) = (trace w ++ d)%list /\ forallb host_only d = true.

Definition is_send (e : effect) : bool :=
  match e with
  | ECall (Self name) _ (Ret _) => String.eqb name "send_command"
  | _ => false
  end.

Definition is_wait_return (e : effect) : bool :=
  match e with
  | ECall (Meth _ name) _ (Ret _) => String.eqb name "wait"
  | _ => false
  end.

(** Commands submitted, and command results received, in a trace. *)
Definition submitted (tr : list effect) : Z :=
  Z.of_nat (List.length (List.filter is_send tr)).

Definition awaited (tr : list effect) : Z :=
  Z.of_nat (List.length (List.filter is_wait_return tr)).

Definition in_flight (tr : list effect) : Z := submitted tr - awaited tr.

(** The thread has ended: after [break], or by an uncaught exception. *)
Definition halted (p : pc) : bool :=
  match p with
  | Exited | Crashed _ => true
  | _ => false
  end.

(** Commands still in flight at a program point. *)
Definition pending (p : pc) (n : Z) : Prop :=
  match p with
  | SpamCrush _ _ | SpamCrushDump _ _ | SpamAwait _ => n = 1
  | Crashed _ => n = 0 \/ n = 1
  | _ => n = 0
  end.

(** The messages of the three [else: raise RuntimeError(...)] branches. *)
Definition EXPECTED_FAILURE_MESSAGES : list string :=
  ["ImportError not raised for disabled module";
   "ImportError not raised for nonexistent module";
   "KeyError not raised"].

(** On the way out of [_command_spam], after the loop test saw the event. *)
Definition leaving (p : pc) : bool :=
  match p with
  | SpamClear | SpamLeave => true
  | _ => false
  end.

End Module.

(** The prefixes of the [COMMANDS] table. *)
Definition COMMAND_PREFIXES : list string :=
  ["mgr self-test run";
   "mgr self-test background start";
   "mgr self-test background stop";
   "mgr self-test config get";
   "mgr self-test config get_localized";
   "mgr self-test remote"].

(** ** A concrete host

    A small in-memory host used to run the module: a configuration store, a
    localized configuration store and a key/value store, one OSD, one
    server, the enabled module [influx] and the disabled module
    [dashboard].  Absent keys read as [None], as [MgrModule.get_config]
    does with its default.  Two switches make it misbehave on purpose:
    [persist = false] drops every write, [lenient_remote = true] lets every
    cross-module call return. *)
Record mock_host : Type := MockHost {
  persist : bool;
  lenient_remote : bool;
  config_kv : list (string * pyval);
  local_kv : list (string * pyval);
  store_kv : list (string * pyval)
}.

Definition assoc_set (k : string) (v : pyval) (d : list (string * pyval))
  : list (string * pyval) :=
  List.filter (fun kv => negb (String.eqb k (fst kv))) d ++ [(k, v)].

Definition mock_osd_dump : pyval :=
  PDict [("epoch", PInt 7); ("osds", PList [PDict [("osd", PInt 0)]])].

Definition mock_mgr_map : pyval :=
  PDict [("available_modules",
          PList [PDict [("name", PStr "influx")];
                 PDict [("name", PStr "dashboard")]]);
         ("modules", PList [PStr "influx"])].

Definition mock_remote (h : mock_host) (args : list pyval) : outcome pyval :=
  match args with
  | PStr m :: PStr meth :: _ =>
      if lenient_remote h then Ret PNone
      else if negb (String.eqb m "influx") then
        Raise (ImportError ("Module not found: " +:+ m))
      else if negb (String.eqb meth "handle_command") then
        Raise (NameError ("Method not found: " +:+ meth))
      else Ret (PList [PInt 0; PStr ""; PStr "Self-test OK"])
  | _ => Raise (TypeError "remote() arguments")
  end.

Definition mock_self (name : string) (args : list pyval) (h : mock_host)
  : outcome pyval * mock_host :=
  if String.eqb name "get_osdmap" then (Ret (PObj 1), h)
  else if String.eqb name "get" then
    match args with
    | [PStr "osd_map"] => (Ret mock_osd_dump, h)
    | [PStr "mgr_map"] => (Ret mock_mgr_map, h)
    | _ => (Ret (PDict []), h)
    end
  else if String.eqb name "list_servers" then
    (Ret (PList [PDict [("hostname", PStr "host1")]]), h)
  else if String.eqb name "set_config" then
    match args with
    | [PStr k; v] =>
        (Ret PNone,
         if persist h then
           MockHost (persist h) (lenient_remote h)
                    (assoc_set k v (config_kv h)) (local_kv h) (store_kv h)
         else h)
    | _ => (Raise (TypeError "set_config() arguments"), h)
    end
  else if String.eqb name "get_config" then
    match args with
    | [PStr k] => (Ret (from_option id PNone (assoc k (config_kv h))), h)
    | _ => (Raise (TypeError "get_config() arguments"), h)
    end
  else if String.eqb name "set_localized_config" then
    match args with
    | [PStr k; v] =>
        (Ret PNone,
         if persist h then
           MockHost (persist h) (lenient_remote h)
                    (config_kv h) (assoc_set k v (local_kv h)) (store_kv h)
         else h)
    | _ => (Raise (TypeError "set_localized_config() arguments"), h)
    end
  else if String.eqb name "get_localized_config" then
    match args with
    | [PStr k] => (Ret (from_option id PNone (assoc k (local_kv h))), h)
    | _ => (Raise (TypeError "get_localized_config() arguments"), h)
    end
  else if String.eqb name "set_store" || String.eqb name "set_store_json" then
    match args with
    | [PStr k; v] =>
        (Ret PNone,
         if persist h then
           MockHost (persist h) (lenient_remote h)
                    (config_kv h) (local_kv h) (assoc_set k v (store_kv h))
         else h)
    | _ => (Raise (TypeError "set_store() arguments"), h)
    end
  else if String.eqb name "get_store" || String.eqb name "get_store_json" then
    match args with
    | [PStr k] => (Ret (from_option id PNone (assoc k (store_kv h))), h)
    | _ => (Raise (TypeError "get_store() arguments"), h)
    end
  else if String.eqb name "get_store_prefix" then
    match args with
    | [PStr p] =>
        (Ret (PDict (List.filter (fun kv => String.prefix p (fst kv))
                                 (store_kv h))), h)
    | _ => (Raise (TypeError "get_store_prefix() arguments"), h)
    end
  else if String.eqb name "remote" then (mock_remote h args, h)
  else (Ret PNone, h).

Definition mock_call (t : target) (args : list pyval) (h : mock_host)
  : outcome pyval * mock_host :=
  match t with
  | Self name => mock_self name args h
  | Meth obj name =>
      if String.eqb name "dump" then
        (Ret (if py_eq obj (PObj 1) then mock_osd_dump else PDict []), h)
      else if String.eqb name "new_incremental" then (Ret (PObj 2), h)
      else if String.eqb name "get_crush" then (Ret (PObj 3), h)
      else if String.eqb name "wait" then
        (Ret (PList [PInt 0; PStr ""; PStr ""]), h)
      else (Ret PNone, h)
  | New cls => (Ret (PObj 10), h)
  end.

(** Floats of the concrete host are exact rationals; the generator is a
    counter that walks through the eighths of the unit interval.  Their text
    is the decimal expansion without trailing zeros, which for these values
    is what [json.dumps] writes ([0.0], [0.125], [0.25], ...). *)
Definition mock_random (n : nat) : Q * nat :=
  (Qmake (Z.of_nat (n mod 8)) 8, S n).

Definition mock_int (q : Q) : Z := Z.quot (Qnum q) (Zpos (Qden q)).

Definition mock_float_text (q : Q) : string :=
  let m := (Qnum q * 1000) / Zpos (Qden q) in
  let frac := m mod 1000 in
  pretty (m / 1000) +:+ "." +:+
  (if Z.eqb (frac mod 100) 0 then pretty (frac / 100)
   else if Z.eqb (frac mod 10) 0 then
     (if Z.ltb frac 100 then "0" else EmptyString) +:+ pretty (frac / 10)
   else
     (if Z.ltb frac 10 then "00"
      else if Z.ltb frac 100 then "0" else EmptyString) +:+ pretty frac).

Definition dquote : string := String (Ascii.ascii_of_nat 34) EmptyString.

Definition quoted (s : string) : string := dquote +:+ s +:+ dquote.

Fixpoint mock_json (j : json Q) : string :=
  match j with
  | JStr s => quoted s
  | JInt z => pretty z
  | JFloat q => mock_float_text q
  | JObj fields =>
      "{" +:+
      (fix go (fs : list (string * json Q)) : string :=
         match fs with
         | [] => EmptyString
         | [(k, v)] => quoted k +:+ ": " +:+ mock_json v
         | (k, v) :: fs' =>
             quoted k +:+ ": " +:+ mock_json v +:+ ", " +:+ go fs'
         end) fields
      +:+ "}"
  end.

#[local] Instance mock_runtime : Runtime := {|
  hstate := mock_host;
  host_call := mock_call;
  float := Q;
  rng := nat;
  random_random := mock_random;
  float_mul_int := fun r c => Qmult r (inject_Z c);
  int_of_float := mock_int;
  json_dumps := mock_json;
  py_repr := fun _ => "<object>";
  set_order := fun _ l => l;
  set_order_perm := fun _ l => reflexivity l
|}.

(** Concrete worlds and commands. *)
Definition good_host : mock_host := MockHost true false [] [] [].
Definition lossy_host : mock_host := MockHost false false [] [] [].
Definition lenient_host : mock_host := MockHost true true [] [] [].

Definition at_rest (h : mock_host) : world := __init__ h 0%nat.

Definition running (name : string) (h : mock_host) : world :=
  World (Some name) false h 0%nat [].

Definition cmd (prefix : string) : gmap string string :=
  {[ "prefix" := prefix ]}.

Definition cmd_arg (prefix k v : string) : gmap string string :=
  <[ k := v ]> {[ "prefix" := prefix ]}.

(** ** Sessions of the command thread, and further observations *)

(** The values the data model allows in [_workload]. *)
Definition DESIRED_WORKLOADS : list (option string) :=
  [None; Some WORKLOAD_COMMAND_SPAM; Some WORKLOAD_THROW_EXCEPTION;
   Some SHUTDOWN].

(** *** The discipline of [_command_spam], read off a trace

    What a monitor of the thread's effects sees of each one: the entry into
    [_command_spam] (its first log line), a loop test that read the event as
    cleared or as set, a [clear()], a [send_command] call (and whether it
    returned), a returned [result.wait()], or anything else. *)
Inductive obs : Type :=
| OEnter
| OTestCleared
| OTestSet
| OClear
| OSend (returned : bool)
| OResult
| OOther.

Definition observe (e : effect) : obs :=
  match e with
  | ELog msg =>
      if String.eqb msg "Starting command_spam workload..." then OEnter
      else OOther
  | EIsSet false => OTestCleared
  | EIsSet true => OTestSet
  | EClear => OClear
  | ECall (Self name) _ r =>
      if String.eqb name "send_command" then OSend (is_ret r) else OOther
  | ECall (Meth _ name) _ (Ret _) =>
      if String.eqb name "wait" then OResult else OOther
  | _ => OOther
  end.

(** Where the monitor is: outside the body; in the body and due for a loop
    test; past a loop test that read the event as cleared, with nothing
    submitted yet in this turn; with one command submitted and its result
    not yet received; past a loop test that read the event as set. *)
Inductive mstate : Type :=
| InServe
| NeedTest
| Tested
| Sent
| Stopping.

(** The moves the discipline allows; every other one is a violation.
    A command is submitted only right after a loop test that read the event
    as cleared, and only one per test; the next loop test comes only after the
    result of that command was received; after a loop test that read the
    event as set the next effect is [clear()], which leaves the body; and the
    event is tested, and commands are submitted, only inside the body. *)
Definition mstep (s : mstate) (o : obs) : option mstate :=
  match s, o with
  | InServe, OEnter => Some NeedTest
  | InServe, OClear => Some InServe
  | InServe, OOther => Some InServe
  | NeedTest, OTestCleared => Some Tested
  | NeedTest, OTestSet => Some Stopping
  | NeedTest, OOther => Some NeedTest
  | Tested, OSend true => Some Sent
  | Tested, OSend false => Some Tested
  | Tested, OOther => Some Tested
  | Sent, OResult => Some NeedTest
  | Sent, OOther => Some Sent
  | Stopping, OClear => Some InServe
  | _, _ => None
  end.

(** The state of the monitor after a trace that started in [serve], or
    [None] if the trace broke the discipline somewhere. *)
Definition discipline (tr : list effect) : option mstate :=
  fold_left (fun s e => s ≫= fun s' => mstep s' (observe e)) tr
            (Some InServe).

(** What the host can ask of the module from outside [serve]: deliver a
    command, or call [shutdown()]. *)
Inductive ctl_op : Type :=
| OpCommand (inbuf : string) (command : gmap string string)
| OpShutdown.

Section Sessions.
Context {RT : Runtime}.

Definition apply_op (w : world) (o : ctl_op) : world :=
  match o with
  | OpCommand inbuf command => snd (handle_command inbuf command w)
  | OpShutdown => snd (shutdown w)
  end.

(** The operations of a session, one after the other. *)
Definition apply_ops (ops : list ctl_op) (w : world) : world :=
  fold_left apply_op ops w.

(** The program points of [_command_spam] up to its loop exit. *)
Definition in_body (p : pc) : bool :=
  match p with
  | SpamEnter | SpamCheck | SpamOsdmap | SpamDump _ | SpamPick _ _
  | SpamResult _ _ _ | SpamSend _ _ _ _ | SpamCrush _ _ | SpamCrushDump _ _
  | SpamAwait _ => true
  | _ => false
  end.

(** The state the monitor is in when the thread is at a program point. *)
Definition expects (p : pc) (s : mstate) : Prop :=
  match p with
  | SpamCheck => s = NeedTest
  | SpamOsdmap | SpamDump _ | SpamPick _ _ | SpamResult _ _ _
  | SpamSend _ _ _ _ => s = Tested
  | SpamCrush _ _ | SpamCrushDump _ _ | SpamAwait _ => s = Sent
  | SpamClear => s = Stopping
  | Crashed _ => True
  | _ => s = InServe
  end.

(** The program points of the dispatch in [serve]. *)
Definition in_dispatch (p : pc) : bool :=
  match p with
  | Top | TestShutdown | TestThrow | Idle | Woken => true
  | _ => false
  end.

(** A computation that leaves the random generator alone. *)
Definition keeps_gen {A : Type} (m : M A) : Prop :=
  forall w, gen (snd (m w)) = gen w.

(** The world with another thread's record of effects. *)
Definition with_trace (tr : list effect) (w : world) : world :=
  World (_workload w) (_event w) (host w) (gen w) tr.

End Sessions.

(** A second concrete host: the first one, except that every available
    module is enabled. *)
Definition allon_mgr_map : pyval :=
  PDict [("available_modules",
          PList [PDict [("name", PStr "influx")];
                 PDict [("name", PStr "dashboard")]]);
         ("modules", PList [PStr "influx"; PStr "dashboard"])].

Definition allon_call (t : target) (args : list pyval) (h : mock_host)
  : outcome pyval * mock_host :=
  match t, args with
  | Self name, [PStr obj] =>
      if String.eqb name "get" && String.eqb obj "mgr_map"
      then (Ret allon_mgr_map, h)
      else mock_call t args h
  | _, _ => mock_call t args h
  end.

Definition allon_runtime : Runtime := {|
  hstate := mock_host;
  host_call := allon_call;
  float := Q;
  rng := nat;
  random_random := mock_random;
  float_mul_int := fun r c => Qmult r (inject_Z c);
  int_of_float := mock_int;
  json_dumps := mock_json;
  py_repr := fun _ => "<object>";
  set_order := fun _ l => l;
  set_order_perm := fun _ l => reflexivity l
|}.

(** A host whose command results carry an error status. *)
Definition failing_wait_call (t : target) (args : list pyval) (h : mock_host)
  : outcome pyval * mock_host :=
  match t with
  | Meth _ name =>
      if String.eqb name "wait"
      then (Ret (PList [PInt (-22); PStr ""; PStr "rejected"]), h)
      else mock_call t args h
  | _ => mock_call t args h
  end.

Definition failing_wait_runtime : Runtime := {|
  hstate := mock_host;
  host_call := failing_wait_call;
  float := Q;
  rng := nat;
  random_random := mock_random;
  float_mul_int := fun r c => Qmult r (inject_Z c);
  int_of_float := mock_int;
  json_dumps := mock_json;
  py_repr := fun _ => "<object>";
  set_order := fun _ l => l;
  set_order_perm := fun _ l => reflexivity l
|}.

(** A host whose command results are pairs. *)
Definition short_wait_call (t : target) (args : list pyval) (h : mock_host)
  : outcome pyval * mock_host :=
  match t with
  | Meth _ name =>
      if String.eqb name "wait"
      then (Ret (PList [PInt 0; PStr ""]), h)
      else mock_call t args h
  | _ => mock_call t args h
  end.

Definition short_wait_runtime : Runtime := {|
  hstate := mock_host;
  host_call := short_wait_call;
  float := Q;
  rng := nat;
  random_random := mock_random;
  float_mul_int := fun r c => Qmult r (inject_Z c);
  int_of_float := mock_int;
  json_dumps := mock_json;
  py_repr := fun _ => "<object>";
  set_order := fun _ l => l;
  set_order_perm := fun _ l => reflexivity l
|}.

(** ** Evaluating [handle_command] *)

Section Dispatch.
Context {RT : Runtime}.

Lemma prefix_is_eval (command : gmap string string) (p q : string) (w : world) :
  command !! "prefix" = Some p ->
  prefix_is command q w = (Ret (String.eqb p q), w).
Proof.
  intros Hp. unfold prefix_is, bind, command_get. rewrite Hp. reflexivity.
Qed.

Lemma command_get_eval (command : gmap string string) (k v : string)
      (w : world) :
  command !! k = Some v -> command_get command k w = (Ret v, w).
Proof. intros Hk. unfold command_get. rewrite Hk. reflexivity. Qed.

End Dispatch.

Ltac next_prefix Hp :=
  rewrite (prefix_is_eval _ _ _ _ Hp);
  match goal with
  | |- context [String.eqb ?p ?q] => destruct (String.eqb p q) eqn:?
  end;
  cbn beta iota; [|].

Ltac dispatch Hp :=
  unfold handle_command, bind;
  repeat (rewrite (prefix_is_eval _ _ _ _ Hp); cbn [String.eqb Ascii.eqb Bool.eqb]).

Section StartRejected.
Context {RT : Runtime}.

Lemma not_in_existsb (name : string) (l : list string) :
  ~ In name l -> existsb (String.eqb name) l = false.
Proof.
  intros Hnot. apply not_true_is_false. intros Hex.
  apply existsb_exists in Hex. destruct Hex as (x & Hin & Heq).
  apply String.eqb_eq in Heq. subst x. exact (Hnot Hin).
Qed.

Lemma start_not_registered
    (inbuf : string) (command : gmap string string) (name : string)
    (w : world) :
  command !! "prefix" = Some "mgr self-test background start" ->
  command !! "workload" = Some name ->
  ~ In name WORKLOADS ->
  handle_command inbuf command w
  = (Ret (- EINVAL, "", "Workload not found '" +:+ name +:+ "'"), w).
Proof.
  intros Hp Hw Hnot. dispatch Hp.
  rewrite !(command_get_eval _ _ _ _ Hw).
  rewrite (not_in_existsb _ _ Hnot). cbn.
  rewrite (command_get_eval _ _ _ _ Hw). reflexivity.
Qed.

End StartRejected.

(** ** Computations that only talk to the host *)

Section Quiet.
Context {RT : Runtime}.

Notation "'let*' x ':=' m 'in' k" := (bind m (fun x => k))
  (at level 10, x pattern, m at level 100, k at level 200).

Lemma quiet_ret {A : Type} (a : A) : quiet (ret a).
Proof. intros w. split; [reflexivity|]. exists []. cbn. by rewrite app_nil_r. Qed.

Lemma quiet_raise {A : Type} (e : exn) : quiet (raise (A:=A) e).
Proof. intros w. split; [reflexivity|]. exists []. cbn. by rewrite app_nil_r. Qed.

Lemma quiet_lift {A : Type} (o : outcome A) : quiet (lift o).
Proof. intros w. split; [reflexivity|]. exists []. cbn. by rewrite app_nil_r. Qed.

Lemma quiet_bind {A B : Type} (m : M A) (k : A -> M B) :
  quiet m -> (forall a, quiet (k a)) -> quiet (bind m k).
Proof.
  intros Hm Hk w. unfold bind. specialize (Hm w).
  destruct (m w) as [[a|e] w1]; cbn in Hm.
  - destruct Hm as (Hs & d & Ht & Hd).
    destruct (Hk a w1) as (Hs' & d' & Ht' & Hd').
    split; [congruence|]. exists (d ++ d')%list.
    rewrite Ht', Ht, forallb_app, Hd, Hd'. by rewrite app_assoc.
  - exact Hm.
Qed.

Lemma quiet_call (t : target) (args : list pyval) : quiet (call t args).
Proof.
  intros w. unfold call. destruct (host_call t args (host w)) as [r h].
  split; [reflexivity|]. by exists [ECall t args r].
Qed.

Lemma quiet_log (msg : string) : quiet (log_info msg).
Proof. intros w. split; [reflexivity|]. by exists [ELog msg]. Qed.

Lemma quiet_random : quiet random.
Proof.
  intros w. unfold random. destruct (random_random (gen w)) as [f g].
  split; [reflexivity|]. exists []. cbn. by rewrite app_nil_r.
Qed.

Lemma quiet_assert (b : bool) : quiet (py_assert b).
Proof. destruct b; [apply quiet_ret | apply quiet_raise]. Qed.

Lemma quiet_for_each {A : Type} (items : list A) (body : A -> M unit) :
  (forall x, quiet (body x)) -> quiet (for_each items body).
Proof.
  intros Hb. induction items as [|x rest IH]; cbn.
  - apply quiet_ret.
  - apply quiet_bind; [apply Hb | intros _; exact IH].
Qed.

Lemma quiet_for_in (o : pyval) (body : pyval -> M unit) :
  (forall x, quiet (body x)) -> quiet (for_in o body).
Proof.
  intros Hb. apply quiet_bind; [apply quiet_lift|].
  intros items. by apply quiet_for_each.
Qed.

Lemma quiet_expect_raises (cls : string) (body : M pyval) (msg : string) :
  quiet body -> quiet (expect_raises cls body msg).
Proof.
  intros Hb w. unfold expect_raises. specialize (Hb w).
  destruct (body w) as [[v|e] w1]; cbn in Hb |- *; [exact Hb|].
  destruct (isinstance e cls); exact Hb.
Qed.

End Quiet.

Create HintDb quiet.
#[export] Hint Resolve quiet_ret quiet_raise quiet_lift quiet_call quiet_log
  quiet_random quiet_assert : quiet.

Ltac quiet_tac :=
  repeat first
    [ apply quiet_bind; [|intros ?]
    | apply quiet_for_each; intros ?
    | apply quiet_for_in; intros ?
    | apply quiet_expect_raises
    | solve [auto with quiet] ].

Section QuietProcedures.
Context {RT : Runtime}.

Lemma quiet_self_test : quiet _self_test.
Proof.
  unfold _self_test, _self_test_osdmap, _self_test_getters, _self_test_config,
    _self_test_store, _self_test_misc, _self_test_perf_counters.
  quiet_tac.
Qed.

Lemma quiet_test_remote_calls : quiet _test_remote_calls.
Proof. unfold _test_remote_calls. quiet_tac. Qed.

End QuietProcedures.

(** ** What a command can do to the shared attributes *)

Section Footprint.
Context {RT : Runtime}.

Lemma host_only_no_sync (d : list effect) :
  forallb host_only d = true -> forallb no_sync d = true.
Proof.
  induction d as [|e d IH]; cbn; [done|].
  intros [He Hd]%andb_true_iff. rewrite (IH Hd), andb_true_r.
  by destruct e.
Qed.

Lemma no_sync_write_then_signal (d : list effect) :
  forallb no_sync d = true -> write_then_signal d = true.
Proof.
  induction d as [|e d IH]; cbn; [done|].
  intros [He Hd]%andb_true_iff. destruct e; cbn in He; try discriminate; auto.
Qed.

Lemma existsb_eqb_In (name : string) (l : list string) :
  existsb (String.eqb name) l = true -> In name l.
Proof.
  intros (x & Hin & Heq)%existsb_exists. apply String.eqb_eq in Heq.
  by subst x.
Qed.

(** Every run of [handle_command] is of one of three kinds: it changes no
    shared attribute; it is a successful start, which assigns a registered
    name and then sets the event; or it is an effective stop, which assigns
    [None] and then sets the event. *)
Lemma handle_command_cases (inbuf : string) (command : gmap string string)
      (w : world) :
  exists d,
    trace (snd (handle_command inbuf command w)) = (trace w ++ d)%list /\
    ((shared (snd (handle_command inbuf command w)) = shared w /\
      forallb no_sync d = true)
     \/ (exists name,
           In name WORKLOADS /\
           shared (snd (handle_command inbuf command w)) = (Some name, true) /\
           d = [EWrite (Some name); ESet; ERead (Some name)])
     \/ (truthy (_workload w) = true /\
         shared (snd (handle_command inbuf command w)) = (None, true) /\
         d = [ERead (_workload w); ERead (_workload w); EWrite None; ESet])).
Proof.
  destruct (command !! "prefix") as [p|] eqn:Hp.
  2:{ unfold handle_command, bind, prefix_is, command_get. rewrite Hp. cbn.
      exists []. rewrite app_nil_r. auto. }
  unfold handle_command, bind.
  next_prefix Hp.
  { destruct (quiet_self_test w) as (Hs & d & Ht & Hd).
    destruct (_self_test w) as [[u|e] w1]; cbn in *;
      exists d; auto using host_only_no_sync. }
  next_prefix Hp.
  { destruct (command !! "workload") as [name|] eqn:Hw.
    2:{ unfold command_get. rewrite Hw. cbn. exists []. rewrite app_nil_r.
        auto. }
    rewrite !(command_get_eval _ _ _ _ Hw).
    destruct (existsb (String.eqb name) WORKLOADS) eqn:Hex; cbn.
    - rewrite !(command_get_eval _ _ _ _ Hw). cbn.
      exists [EWrite (Some name); ESet; ERead (Some name)].
      split; [by rewrite <- !app_assoc|]. right; left.
      pose proof (existsb_eqb_In _ _ Hex) as Hin. by exists name.
    - rewrite !(command_get_eval _ _ _ _ Hw). cbn.
      exists []. rewrite app_nil_r. auto. }
  next_prefix Hp.
  { cbn. destruct (truthy (_workload w)) eqn:Htr; cbn.
    - exists [ERead (_workload w); ERead (_workload w); EWrite None; ESet].
      split; [by rewrite <- !app_assoc|]. right; right. auto.
    - exists [ERead (_workload w)]. auto. }
  next_prefix Hp.
  { destruct (command !! "key") as [key|] eqn:Hk.
    2:{ unfold command_get. rewrite Hk. cbn. exists []. rewrite app_nil_r.
        auto. }
    rewrite !(command_get_eval _ _ _ _ Hk). cbn. unfold call.
    destruct (host_call _ _ _) as [[v|e] h]; cbn; eexists [_]; auto. }
  next_prefix Hp.
  { destruct (command !! "key") as [key|] eqn:Hk.
    2:{ unfold command_get. rewrite Hk. cbn. exists []. rewrite app_nil_r.
        auto. }
    rewrite !(command_get_eval _ _ _ _ Hk). cbn. unfold call.
    destruct (host_call _ _ _) as [[v|e] h]; cbn; eexists [_]; auto. }
  next_prefix Hp.
  { destruct (quiet_test_remote_calls w) as (Hs & d & Ht & Hd).
    destruct (_test_remote_calls w) as [[u|e] w1]; cbn in *;
      exists d; auto using host_only_no_sync. }
  rewrite (command_get_eval _ _ _ _ Hp). cbn. exists []. rewrite app_nil_r.
  auto.
Qed.

End Footprint.

(** ** The control surface: claims *)

Section ControlSurface.
Context {RT : Runtime}.

(** C3: a start request for a name outside [WORKLOADS] returns [-EINVAL]
    with the message ["Workload not found '<name>'"], which names the
    offending identifier, and the world it returns is the one it was given:
    [_workload] and the event are as before and no effect was performed. *)
Theorem start_unknown_workload_rejected
    (inbuf : string) (command : gmap string string) (name : string)
    (w : world) :
  command !! "prefix" = Some "mgr self-test background start" ->
  command !! "workload" = Some name ->
  ~ In name WORKLOADS ->
  handle_command inbuf command w
  = (Ret (- EINVAL, "", "Workload not found '" +:+ name +:+ "'"), w).
Proof. apply start_not_registered. Qed.

(** C9: a command whose prefix is none of the six prefixes of [COMMANDS]
    returns [-EINVAL] with the message ["Command not found '<prefix>'"], and
    the world it returns is the one it was given. *)
Theorem unknown_prefix_rejected
    (inbuf : string) (command : gmap string string) (p : string) (w : world) :
  command !! "prefix" = Some p ->
  ~ In p COMMAND_PREFIXES ->
  handle_command inbuf command w
  = (Ret (- EINVAL, "", "Command not found '" +:+ p +:+ "'"), w).
Proof.
  intros Hp Hnot. unfold handle_command, bind.
  do 6 (next_prefix Hp;
        [exfalso; apply Hnot;
         match goal with H : String.eqb _ _ = true |- _ =>
           apply String.eqb_eq in H; rewrite H end;
         cbn; tauto|]).
  by rewrite (command_get_eval _ _ _ _ Hp).
Qed.

(** C4: a stop request always returns status 0.  When [_workload] holds a
    workload name it assigns [None], sets the event and names the stopped
    workload in its message; when [_workload] is [None] it only reads the
    attribute and says that nothing was running.  A second stop right after
    the first returns status 0 with the nothing-was-running message and
    leaves both shared attributes as the first one left them. *)
Theorem stop_background_idempotent
    (inbuf : string) (command : gmap string string) (w : world) :
  command !! "prefix" = Some "mgr self-test background stop" ->
  let r1 := handle_command inbuf command w in
  let r2 := handle_command inbuf command (snd r1) in
  (exists msg, fst r1 = Ret (0, "", msg)) /\
  (forall name,
      _workload w = Some name -> name <> "" ->
      fst r1 = Ret (0, "", "Stopping background workload `" +:+ name +:+ "`")
      /\ shared (snd r1) = (None, true)) /\
  (_workload w = None ->
      fst r1 = Ret (0, "", "No background workload was running")
      /\ snd r1 = emit (ERead None) w) /\
  fst r2 = Ret (0, "", "No background workload was running") /\
  shared (snd r2) = shared (snd r1).
Proof.
  intros Hp r1 r2. subst r1 r2. dispatch Hp. cbn.
  destruct w as [wl ev h g tr]. cbn.
  destruct wl as [name|]; cbn.
  - destruct (String.eqb name "") eqn:Hn; cbn.
    + dispatch Hp. cbn. rewrite Hn. cbn. split_and!; eauto.
      * intros name' [= <-] Hne. by apply String.eqb_eq in Hn.
      * discriminate.
    + dispatch Hp. cbn. split_and!; eauto.
      * by intros name' [= <-] _.
      * discriminate.
  - dispatch Hp. cbn. split_and!; eauto. discriminate.
Qed.

(** C5: whatever the command, the effects of [handle_command] contain
    either no change of a shared attribute at all, or exactly one assignment
    to [_workload] directly followed by [set()], after which the attributes
    hold the assigned value and a set event; [shutdown] is of the second
    kind.  So no assignment goes without its signal and no signal comes
    before, or without, the assignment. *)
Theorem write_before_signal
    (inbuf : string) (command : gmap string string) (w : world) :
  (exists d,
      trace (snd (handle_command inbuf command w)) = (trace w ++ d)%list /\
      write_then_signal d = true /\
      ((shared (snd (handle_command inbuf command w)) = shared w /\
        forallb no_sync d = true)
       \/ exists v d1 d2,
            d = (d1 ++ [EWrite v; ESet] ++ d2)%list /\
            forallb no_sync d1 = true /\ forallb no_sync d2 = true /\
            shared (snd (handle_command inbuf command w)) = (v, true))) /\
  trace (snd (shutdown w)) = (trace w ++ [EWrite (Some SHUTDOWN); ESet])%list /\
  shared (snd (shutdown w)) = (Some SHUTDOWN, true).
Proof.
  split.
  - destruct (handle_command_cases inbuf command w)
      as (d & Ht & [[Hs Hd] | [(name & Hin & Hs & ->) | (Htr & Hs & ->)]]).
    + exists d. split_and!; auto using no_sync_write_then_signal.
    + eexists. split_and!; [exact Ht|done|]. right.
      by exists (Some name), [], [ERead (Some name)].
    + eexists. split_and!; [exact Ht|done|]. right.
      by exists None, [ERead (_workload w); ERead (_workload w)], [].
  - cbn. by rewrite <- app_assoc.
Qed.

(** C10: no command makes [_workload] hold ["shutdown"] unless it already
    did; a start request for ["shutdown"] is rejected with [-EINVAL] and
    changes nothing; [shutdown()] is what assigns it. *)
Theorem shutdown_only_by_shutdown
    (inbuf : string) (command : gmap string string) (w : world) :
  (_workload w <> Some SHUTDOWN ->
   _workload (snd (handle_command inbuf command w)) <> Some SHUTDOWN) /\
  (command !! "prefix" = Some "mgr self-test background start" ->
   command !! "workload" = Some SHUTDOWN ->
   handle_command inbuf command w
   = (Ret (- EINVAL, "", "Workload not found 'shutdown'"), w)) /\
  _workload (snd (shutdown w)) = Some SHUTDOWN.
Proof.
  split_and!.
  - intros Hw.
    destruct (handle_command_cases inbuf command w)
      as (d & Ht & [[Hs Hd] | [(name & Hin & Hs & ->) | (Htr & Hs & ->)]]);
      injection Hs as Hs _; rewrite Hs; [done| |done].
    intros [= ->]. cbn in Hin. unfold WORKLOAD_COMMAND_SPAM,
      WORKLOAD_THROW_EXCEPTION, SHUTDOWN in Hin.
    destruct Hin as [Hin|[Hin|[]]]; discriminate.
  - intros Hp Hn. apply (start_not_registered inbuf command SHUTDOWN w Hp Hn).
    cbn. intros [Hin|[Hin|[]]]; discriminate.
  - reflexivity.
Qed.

End ControlSurface.

(** ** The synchronous commands: claims *)

Section Synchronous.
Context {RT : Runtime}.

(** C8 (amended): with a [key] argument, the two config commands make
    exactly one call to the host, [get_config(key)] respectively
    [get_localized_config(key)], and perform no other effect: [_workload]
    and the event are neither read nor written.  They return status 0 and
    [str] of the value the host returned, which is the stored string for a
    string and the text ["None"] when the host returns [None]; an exception
    of the host propagates to the caller. *)
Theorem config_get_passes_through
    (inbuf : string) (command : gmap string string) (key : string)
    (w : world) :
  command !! "key" = Some key ->
  (command !! "prefix" = Some "mgr self-test config get" ->
   handle_command inbuf command w
   = let r := host_call (Self "get_config") [PStr key] (host w) in
     (match fst r with
      | Ret v => Ret (0, py_str v, "")
      | Raise e => Raise e
      end,
      World (_workload w) (_event w) (snd r) (gen w)
            (trace w ++ [ECall (Self "get_config") [PStr key] (fst r)]))) /\
  (command !! "prefix" = Some "mgr self-test config get_localized" ->
   handle_command inbuf command w
   = let r := host_call (Self "get_localized_config") [PStr key] (host w) in
     (match fst r with
      | Ret v => Ret (0, py_str v, "")
      | Raise e => Raise e
      end,
      World (_workload w) (_event w) (snd r) (gen w)
            (trace w
             ++ [ECall (Self "get_localized_config") [PStr key] (fst r)]))) /\
  (forall s, py_str (PStr s) = s) /\
  py_str PNone = "None".
Proof.
  intros Hk. split_and!; [| |done|done]; intros Hp; dispatch Hp;
    rewrite (command_get_eval _ _ _ _ Hk); unfold call;
    destruct (host_call _ _ _) as [[v|e] h]; reflexivity.
Qed.

(** C6 (amended): the run command executes [_self_test] on the calling
    thread and touches neither [_workload] nor the event.  When
    [_self_test] returns, the command returns [(0, '', 'Self-test
    succeeded')]; when it raises, the same exception leaves
    [handle_command] and no result is returned.  In particular, when
    [get_config("testkey")] does not compare equal to ["testvalue"],
    [_self_test_config] raises [AssertionError] right after that call and
    makes no further one. *)
Theorem self_test_run_outcome
    (inbuf : string) (command : gmap string string) (w : world) :
  command !! "prefix" = Some "mgr self-test run" ->
  handle_command inbuf command w
  = (match fst (_self_test w) with
     | Ret _ => Ret (0, "", "Self-test succeeded")
     | Raise e => Raise e
     end, snd (_self_test w)) /\
  shared (snd (handle_command inbuf command w)) = shared w /\
  (forall r1 h1 v h2,
      host_call (Self "set_config") [PStr "testkey"; PStr "testvalue"] (host w)
      = (Ret r1, h1) ->
      host_call (Self "get_config") [PStr "testkey"] h1 = (Ret v, h2) ->
      py_eq v (PStr "testvalue") = false ->
      _self_test_config w
      = (Raise (AssertionError ""),
         World (_workload w) (_event w) h2 (gen w)
               (trace w
                ++ [ECall (Self "set_config")
                          [PStr "testkey"; PStr "testvalue"] (Ret r1);
                    ECall (Self "get_config") [PStr "testkey"] (Ret v)]))).
Proof.
  intros Hp.
  assert (Heq : handle_command inbuf command w
                = (match fst (_self_test w) with
                   | Ret _ => Ret (0, "", "Self-test succeeded")
                   | Raise e => Raise e
                   end, snd (_self_test w))).
  { dispatch Hp. by destruct (_self_test w) as [[u|e] w1]. }
  split_and!.
  - exact Heq.
  - rewrite Heq. cbn. apply quiet_self_test.
  - intros r1 h1 v h2 Hset Hget Hne.
    unfold _self_test_config, bind, call. cbn. rewrite Hset. cbn.
    rewrite Hget. cbn. rewrite Hne. cbn. unfold emit; cbn.
    by rewrite <- app_assoc.
Qed.

End Synchronous.

(** ** The cross-module call test: claims *)

Section RemoteCalls.
Context {RT : Runtime}.

Lemma first_of_set_order (l : list pyval) (x : pyval) :
  py_first (set_order pyval l) = Ret x -> In x l.
Proof.
  unfold py_first. destruct (set_order pyval l) as [|y l'] eqn:Hl; [done|].
  intros [= ->]. apply list_elem_of_In.
  rewrite <- (set_order_perm pyval l), Hl. by left.
Qed.

Ltac no_returned_call :=
  let Hin := fresh "Hin" in
  intros ? ? ? Hin; exfalso; cbn in Hin;
  repeat (destruct Hin as [Hin|Hin]; [discriminate Hin|]); exact Hin.

Ltac raised_runtime_error :=
  intros ? ? ? _; eexists; split; [reflexivity | cbn; tauto].

(** How a run of [_test_remote_calls] can end, read off its trace. *)
Lemma test_remote_calls_outcome (w : world) :
  exists d,
    trace (snd (_test_remote_calls w)) = (trace w ++ d)%list /\
    (fst (_test_remote_calls w) = Ret tt ->
     exists v0 mgr_map ds dm e1 e2 e3,
       d = [ECall (Self "remote")
                  [PStr "influx"; PStr "handle_command"; PStr "";
                   self_test_cmd] (Ret v0);
            ECall (Self "get") [PStr "mgr_map"] (Ret mgr_map);
            ECall (Self "remote")
                  [dm; PStr "handle_command"; self_test_cmd] (Raise e1);
            ECall (Self "remote")
                  [PStr "idontexist"; PStr "handle_command"; self_test_cmd]
                  (Raise e2);
            ECall (Self "remote")
                  [PStr "influx"; PStr "idontexist"; self_test_cmd]
                  (Raise e3)] /\
       disabled_modules_of mgr_map = Ret ds /\ In dm ds /\
       isinstance e1 "ImportError" = true /\
       isinstance e2 "ImportError" = true /\
       isinstance e3 "NameError" = true) /\
    (forall m meth v,
        In (ECall (Self "remote") [m; meth; self_test_cmd] (Ret v)) d ->
        exists msg,
          fst (_test_remote_calls w) = Raise (RuntimeError msg) /\
          In msg EXPECTED_FAILURE_MESSAGES).
Proof.
  unfold _test_remote_calls, bind, expect_raises, call, lift, emit. cbn.
  destruct (host_call _ _ (host w)) as [[v0|e0] h0]; cbn.
  2:{ eexists [_]. split_and!; [done|done|no_returned_call]. }
  destruct (host_call _ _ h0) as [[mgr_map|eg] h1]; cbn.
  2:{ eexists [_; _]. split_and!;
        [by rewrite <- !app_assoc|done|no_returned_call]. }
  destruct (disabled_modules_of mgr_map) as [ds|ed] eqn:Hds; cbn.
  2:{ eexists [_; _]. split_and!;
        [by rewrite <- !app_assoc|done|no_returned_call]. }
  destruct (py_first (set_order pyval ds)) as [dm|ef] eqn:Hdm; cbn.
  2:{ eexists [_; _]. split_and!;
        [by rewrite <- !app_assoc|done|no_returned_call]. }
  apply first_of_set_order in Hdm.
  destruct (host_call _ _ h1) as [[v1|e1] h2]; cbn.
  { eexists [_; _; _]. split_and!;
      [by rewrite <- !app_assoc|done|raised_runtime_error]. }
  destruct (isinstance e1 "ImportError") eqn:He1; cbn.
  2:{ eexists [_; _; _]. split_and!;
        [by rewrite <- !app_assoc|done|no_returned_call]. }
  destruct (host_call _ _ h2) as [[v2|e2] h3]; cbn.
  { eexists [_; _; _; _]. split_and!;
      [by rewrite <- !app_assoc|done|raised_runtime_error]. }
  destruct (isinstance e2 "ImportError") eqn:He2; cbn.
  2:{ eexists [_; _; _; _]. split_and!;
        [by rewrite <- !app_assoc|done|no_returned_call]. }
  destruct (host_call _ _ h3) as [[v3|e3] h4]; cbn.
  { eexists [_; _; _; _; _]. split_and!;
      [by rewrite <- !app_assoc|done|raised_runtime_error]. }
  destruct (isinstance e3 "NameError") eqn:He3; cbn.
  2:{ eexists [_; _; _; _; _]. split_and!;
        [by rewrite <- !app_assoc|done|no_returned_call]. }
  eexists [_; _; _; _; _]. split_and!; [by rewrite <- !app_assoc| |].
  - intros _. by exists v0, mgr_map, ds, dm, e1, e2, e3.
  - no_returned_call.
Qed.

(** C7: the remote command passes only if the call into a disabled module
    (a member of the set of available-but-not-enabled names) raised an
    [ImportError], the call into the module ["idontexist"] raised an
    [ImportError] too, and the call of the method ["idontexist"] of
    ["influx"] raised a [NameError]; these were its last three calls.  If any
    of these three-argument calls returns instead, the command ends with a
    [RuntimeError] carrying one of the three messages, raised to the caller
    of [handle_command].  The two kinds are distinct: an [ImportError] is not
    a [NameError] and a [NameError] is not an [ImportError]. *)
Theorem remote_test_expected_failures
    (inbuf : string) (command : gmap string string) (w : world) :
  command !! "prefix" = Some "mgr self-test remote" ->
  exists d,
    trace (snd (handle_command inbuf command w)) = (trace w ++ d)%list /\
    (forall res,
        fst (handle_command inbuf command w) = Ret res ->
        res = (0, "", "Successfully called") /\
        exists pre mgr_map ds dm e1 e2 e3,
          d = (pre ++
               [ECall (Self "remote")
                      [dm; PStr "handle_command"; self_test_cmd] (Raise e1);
                ECall (Self "remote")
                      [PStr "idontexist"; PStr "handle_command"; self_test_cmd]
                      (Raise e2);
                ECall (Self "remote")
                      [PStr "influx"; PStr "idontexist"; self_test_cmd]
                      (Raise e3)])%list /\
          In (ECall (Self "get") [PStr "mgr_map"] (Ret mgr_map)) pre /\
          disabled_modules_of mgr_map = Ret ds /\ In dm ds /\
          isinstance e1 "ImportError" = true /\
          isinstance e2 "ImportError" = true /\
          isinstance e3 "NameError" = true) /\
    (forall m meth v,
        In (ECall (Self "remote") [m; meth; self_test_cmd] (Ret v)) d ->
        exists msg,
          fst (handle_command inbuf command w) = Raise (RuntimeError msg) /\
          In msg EXPECTED_FAILURE_MESSAGES) /\
    (forall msg,
        isinstance (ImportError msg) "NameError" = false /\
        isinstance (NameError msg) "ImportError" = false).
Proof.
  intros Hp.
  destruct (test_remote_calls_outcome w) as (d & Ht & Hpass & Hfail).
  assert (Heq : handle_command inbuf command w
                = (match fst (_test_remote_calls w) with
                   | Ret _ => Ret (0, "", "Successfully called")
                   | Raise e => Raise e
                   end, snd (_test_remote_calls w))).
  { dispatch Hp. by destruct (_test_remote_calls w) as [[u|e] w1]. }
  rewrite Heq. cbn [fst snd]. exists d. split_and!.
  - exact Ht.
  - intros res Hres.
    destruct (fst (_test_remote_calls w)) as [[]|e] eqn:Hr; [|discriminate].
    injection Hres as <-. split; [done|].
    destruct (Hpass eq_refl)
      as (v0 & mgr_map & ds & dm & e1 & e2 & e3 & -> & Hds & Hdm & He).
    exists [ECall (Self "remote")
                  [PStr "influx"; PStr "handle_command"; PStr "";
                   self_test_cmd] (Ret v0);
            ECall (Self "get") [PStr "mgr_map"] (Ret mgr_map)],
           mgr_map, ds, dm, e1, e2, e3.
    split_and!; try done; try apply He. cbn. tauto.
  - intros m meth v Hin. destruct (Hfail m meth v Hin) as (msg & Hr & Hmsg).
    exists msg. by rewrite Hr.
  - done.
Qed.

End RemoteCalls.

(** ** The workload coordinator: claims *)

Section Coordinator.
Context {RT : Runtime}.

Lemma interference_trace (w w' : world) :
  interference w w' -> trace w' = trace w.
Proof. by destruct 1. Qed.

Lemma halted_not_enabled (p : pc) (w : world) :
  halted p = true -> coord_step p w = None.
Proof. by destruct p. Qed.

(** Once the thread has ended it stays where it is and performs no further
    effect, whatever the other threads do. *)
Lemma halted_absorbing (p : pc) (w : world) (c : pc * world) :
  halted p = true ->
  rtc step (p, w) c ->
  fst c = p /\ trace (snd c) = trace w.
Proof.
  intros Hh Hr. remember (p, w) as c0 eqn:Hc0. revert p w Hh Hc0.
  induction Hr as [c|c1 c2 c3 Hstep Hr IH]; intros p w Hh ->; [done|].
  inversion Hstep as [p1 w1 p2 w2 Hco|p1 w1 w2 Hi]; subst.
  - by rewrite (halted_not_enabled _ _ Hh) in Hco.
  - destruct (IH p w2 Hh eq_refl) as [Hp Ht].
    by rewrite Hp, Ht, (interference_trace _ _ Hi).
Qed.

(** C1: the dispatch of [serve], started at the top of the loop with the
    other threads idle.  With ["command_spam"] it enters [_command_spam];
    with ["shutdown"] it logs and leaves the loop; with ["throw_exception"]
    it ends with the uncaught [RuntimeError]; with [None] it logs and waits:
    blocked while the event is cleared, and once the event is set it
    returns from [wait()], clears the event and is back at the top.  After
    leaving the loop, or after the exception, the thread takes no further
    step and performs no further effect under any interleaving. *)
Theorem serve_transition_table (w : world) :
  (_workload w = Some WORKLOAD_COMMAND_SPAM ->
   coord_step Top w = Some (SpamEnter, emit (ERead (_workload w)) w)) /\
  (_workload w = Some SHUTDOWN ->
   run 2 Top w
   = (Exited,
      emit (ELog "Shutting down...")
           (emit (ERead (_workload w)) (emit (ERead (_workload w)) w)))) /\
  (_workload w = Some WORKLOAD_THROW_EXCEPTION ->
   run 3 Top w
   = (Crashed (RuntimeError "Synthetic exception in serve"),
      emit (ERead (_workload w))
           (emit (ERead (_workload w)) (emit (ERead (_workload w)) w)))) /\
  (_workload w = None ->
   run 3 Top w
   = (Idle,
      emit (ELog "Waiting for workload request...")
           (emit (ERead None) (emit (ERead None) (emit (ERead None) w))))) /\
  (_event w = false -> coord_step Idle w = None) /\
  (_event w = true ->
   run 2 Idle w
   = (Top,
      World (_workload w) false (host w) (gen w)
            (trace w ++ [EWait; EClear]))) /\
  (forall p c,
      halted p = true -> rtc step (p, w) c ->
      fst c = p /\ trace (snd c) = trace w /\ coord_step p (snd c) = None).
Proof.
  split_and!.
  - intros Hw. unfold coord_step. cbn. unfold bind. cbn. by rewrite Hw.
  - intros Hw. cbn. unfold coord_step. cbn. unfold bind. cbn.
    rewrite Hw. cbn. unfold bind. cbn. by rewrite Hw.
  - intros Hw. cbn. unfold coord_step. cbn. unfold bind. cbn.
    rewrite Hw. cbn. unfold bind. cbn. rewrite Hw. cbn. unfold bind. cbn.
    by rewrite Hw.
  - intros Hw. cbn. unfold coord_step. cbn. unfold bind. cbn.
    rewrite Hw. cbn. unfold bind. cbn. rewrite Hw. cbn. unfold bind. cbn.
    by rewrite Hw.
  - intros Hev. unfold coord_step. cbn. by rewrite Hev.
  - intros Hev. cbn. unfold coord_step. cbn. rewrite Hev. cbn.
    unfold emit. cbn. by rewrite <- app_assoc.
  - intros p c Hh Hr. destruct (halted_absorbing p w c Hh Hr) as [Hp Ht].
    split_and!; [done|done|by apply halted_not_enabled].
Qed.

Lemma in_flight_snoc (tr : list effect) (e : effect) :
  in_flight (tr ++ [e])
  = in_flight tr + Z.b2z (is_send e) - Z.b2z (is_wait_return e).
Proof.
  unfold in_flight, submitted, awaited.
  rewrite !List.filter_app, !length_app. cbn.
  destruct (is_send e), (is_wait_return e); cbn; lia.
Qed.

Lemma in_flight_interference (w w' : world) :
  interference w w' -> in_flight (trace w') = in_flight (trace w).
Proof. intros Hi. by rewrite (interference_trace _ _ Hi). Qed.

Ltac step_cases :=
  repeat match goal with
         | |- context [host_call ?t ?a ?h] =>
             destruct (host_call t a h) as [[?|?] ?]; cbn
         | |- context [py_getitem_str ?o ?k] =>
             destruct (py_getitem_str o k) as [?|?]; cbn
         | |- context [py_len ?o] => destruct (py_len o) as [?|?]; cbn
         | |- context [py_unpack3 ?o] => destruct (py_unpack3 o) as [?|?]; cbn
         | |- context [random_random ?g] =>
             destruct (random_random g) as [? ?]; cbn
         | |- context [workload_is ?v ?n] => destruct (workload_is v n); cbn
         | |- context [_event ?w] => destruct (_event w); cbn
         end.

(** The number of commands in flight follows the program point. *)
Lemma coord_step_pending (p p' : pc) (w w' : world) :
  coord_step p w = Some (p', w') ->
  pending p (in_flight (trace w)) ->
  pending p' (in_flight (trace w')).
Proof.
  unfold coord_step. destruct (enabled p w); [|discriminate].
  destruct p; cbn; unfold bind, call, random, lift, emit; cbn; step_cases;
    intros [= <- <-]; cbn; rewrite ?in_flight_snoc; cbn; lia.
Qed.

Lemma step_pending (c c' : pc * world) :
  step c c' ->
  pending (fst c) (in_flight (trace (snd c))) ->
  pending (fst c') (in_flight (trace (snd c'))).
Proof.
  destruct 1 as [p w p' w' Hco|p w w' Hi]; cbn.
  - by apply coord_step_pending.
  - by rewrite (in_flight_interference _ _ Hi).
Qed.

Lemma reachable_pending (c c' : pc * world) :
  rtc step c c' ->
  pending (fst c) (in_flight (trace (snd c))) ->
  pending (fst c') (in_flight (trace (snd c'))).
Proof. induction 1; eauto using step_pending. Qed.

Lemma pending_bound (p : pc) (n : Z) : pending p n -> 0 <= n <= 1.
Proof. destruct p; cbn; lia. Qed.

Lemma run_reachable (n : nat) (p : pc) (w : world) :
  rtc step (p, w) (run n p w).
Proof.
  revert p w. induction n as [|n IH]; intros p w; cbn; [done|].
  destruct (coord_step p w) as [[p' w']|] eqn:Hco; [|done].
  eapply rtc_l; [by apply step_coord|apply IH].
Qed.

Lemma submitted_snoc (tr : list effect) (e : effect) :
  submitted (tr ++ [e]) = submitted tr + Z.b2z (is_send e).
Proof.
  unfold submitted. rewrite List.filter_app, length_app. cbn.
  destruct (is_send e); cbn; lia.
Qed.

Lemma awaited_snoc (tr : list effect) (e : effect) :
  awaited (tr ++ [e]) = awaited tr + Z.b2z (is_wait_return e).
Proof.
  unfold awaited. rewrite List.filter_app, length_app. cbn.
  destruct (is_wait_return e); cbn; lia.
Qed.

Local Arguments discipline : simpl never.

Lemma discipline_snoc (tr : list effect) (e : effect) :
  discipline (tr ++ [e])
  = discipline tr ≫= fun s => mstep s (observe e).
Proof. unfold discipline. by rewrite fold_left_app. Qed.

(** The monitor follows the program point: a step of the thread from a
    point where the monitor is as expected keeps the trace within the
    discipline and leaves the monitor as expected at the next point. *)
Lemma coord_step_discipline (p p' : pc) (w w' : world) (s : mstate) :
  coord_step p w = Some (p', w') ->
  discipline (trace w) = Some s ->
  expects p s ->
  exists s', discipline (trace w') = Some s' /\ expects p' s'.
Proof.
  destruct w as [wl ev h g tr]. unfold coord_step. cbn. intros Hco Hd He.
  revert Hco.
  destruct p, ev; cbn in He |- *; try discriminate; subst;
    unfold bind, call, random, lift, emit; cbn; step_cases;
    intros [= <- <-]; cbn; rewrite ?discipline_snoc, Hd; cbn; eauto.
Qed.

Lemma reachable_discipline (c c' : pc * world) :
  rtc step c c' ->
  (exists s, discipline (trace (snd c)) = Some s /\ expects (fst c) s) ->
  exists s, discipline (trace (snd c')) = Some s /\ expects (fst c') s.
Proof.
  induction 1 as [c|c1 c2 c3 Hstep Hr IH]; [done|].
  intros (s & Hd & He). apply IH.
  destruct Hstep as [p w p' w' Hco|p w w' Hi]; cbn in *.
  - by apply (coord_step_discipline p p' w w' s).
  - exists s. by rewrite (interference_trace _ _ Hi).
Qed.

(** C2: [_command_spam] under arbitrary interleaving with the other
    threads.  (a) The first line of the loop body is reached only from the
    loop test, and only when the test read the event as cleared; after
    [result.wait()] the thread is back at the loop test.  (b) Starting from
    an empty trace, the number of submitted commands whose result has not
    been received is at most one at every point, and none is outstanding
    when the next one is sent.  (c) When the loop test reads the event as
    set the thread goes to the exit of the body, and from there to the top of
    [serve] it submits nothing.  (d) The exit clears the event: the line
    after the loop is [_event.clear()], and the body returns to [serve] only
    through it.  (e) Over whole runs: whatever the other threads do, the
    effects of the thread started at the top of [serve] stay within the
    discipline that [mstep] spells out.  Every [send_command] comes right
    after a loop test that read the event as cleared, one per test; the next
    loop test comes only after the result of that command was received; a
    loop test that read the event as set is followed directly by [clear()],
    after which nothing is tested or submitted until the body is entered
    anew.  (f) The loop does submit: from a loop test that reads the event
    as cleared, one turn submits exactly one command and receives exactly
    one result, unless a line of the turn fails. *)
Theorem command_spam_discipline :
  (forall p w w',
      coord_step p w = Some (SpamOsdmap, w') ->
      p = SpamCheck /\ _event w = false /\ w' = emit (EIsSet false) w) /\
  (forall result w p' w',
      coord_step (SpamAwait result) w = Some (p', w') ->
      p' = SpamCheck \/ exists e, p' = Crashed e) /\
  (forall w0 p w,
      trace w0 = [] ->
      rtc step (Top, w0) (p, w) ->
      0 <= in_flight (trace w) <= 1 /\
      (forall osdmap i f result,
          p = SpamSend osdmap i f result -> in_flight (trace w) = 0)) /\
  (forall w,
      _event w = true ->
      coord_step SpamCheck w = Some (SpamClear, emit (EIsSet true) w)) /\
  (forall p w p' w',
      leaving p = true ->
      step (p, w) (p', w') ->
      (leaving p' = true \/ p' = Top) /\
      submitted (trace w') = submitted (trace w)) /\
  (forall w,
      coord_step SpamClear w
      = Some (SpamLeave,
              World (_workload w) false (host w) (gen w)
                    (trace w ++ [EClear]))) /\
  (forall p w w',
      coord_step p w = Some (SpamLeave, w') ->
      p = SpamClear /\ _event w' = false) /\
  (forall p w w',
      coord_step p w = Some (Top, w') -> p = Woken \/ p = SpamLeave) /\
  (forall w0 p w,
      trace w0 = [] ->
      rtc step (Top, w0) (p, w) ->
      exists s, discipline (trace w) = Some s /\ expects p s) /\
  (forall w,
      _event w = false ->
      (fst (run 9 SpamCheck w) = SpamCheck /\
       submitted (trace (snd (run 9 SpamCheck w)))
       = submitted (trace w) + 1 /\
       awaited (trace (snd (run 9 SpamCheck w))) = awaited (trace w) + 1)
      \/ exists e, fst (run 9 SpamCheck w) = Crashed e).
Proof.
  split_and!.
  - intros p w w'. unfold coord_step. destruct (enabled p w); [|discriminate].
    destruct p; cbn; unfold bind, call, random, lift; cbn; step_cases;
      intros [= <-]; try discriminate.
    done.
  - intros result w p' w'. unfold coord_step. cbn. unfold bind, call, lift.
    cbn. step_cases; intros [= <- <-]; eauto.
  - intros w0 p w Ht Hr.
    assert (Hp : pending p (in_flight (trace w))).
    { apply (reachable_pending _ _ Hr). cbn. by rewrite Ht. }
    split; [by apply (pending_bound p)|]. by intros osdmap i f result ->.
  - intros w Hev. unfold coord_step. cbn. unfold bind. cbn. by rewrite Hev.
  - intros p w p' w' Hl Hstep.
    inversion Hstep as [p1 w1 p2 w2 Hco|p1 w1 w2 Hi]; subst.
    + destruct p; try discriminate; cbn in Hco; injection Hco as <- <-;
        cbn; unfold submitted; rewrite List.filter_app; cbn;
        rewrite app_nil_r; auto.
    + rewrite (interference_trace _ _ Hi). auto.
  - done.
  - intros p w w' Hco.
    assert (p = SpamClear /\
            w' = emit EClear (World (_workload w) false (host w) (gen w)
                                    (trace w))) as [-> ->]; [|done].
    revert Hco. unfold coord_step. destruct (enabled p w); [|discriminate].
    destruct p; cbn; unfold bind, call, random, lift; cbn; step_cases;
      intros [= <-]; try discriminate. done.
  - intros p w w'. unfold coord_step. destruct (enabled p w); [|discriminate].
    destruct p; cbn; unfold bind, call, random, lift; cbn; step_cases;
      intros [= <-]; try discriminate; auto.
  - intros w0 p w Ht Hr.
    apply (reachable_discipline (Top, w0) (p, w) Hr).
    exists InServe. cbn. by rewrite Ht.
  - intros [wl ev h g tr]. cbn. intros ->.
    repeat (cbn; unfold coord_step, bind, call, random, lift, emit; cbn;
            step_cases);
      first [ left; split_and!; [done| |];
              rewrite ?submitted_snoc, ?awaited_snoc; cbn; lia
            | right; by eexists ].
Qed.

End Coordinator.

(** ** Runs on the concrete host *)

Lemma start_unknown_workload_rejected_witness :
  handle_command "" (cmd_arg "mgr self-test background start" "workload" "bogus")
                 (running "command_spam" good_host)
  = (Ret (-22, "", "Workload not found 'bogus'"),
     running "command_spam" good_host).
Proof.
  apply (start_unknown_workload_rejected
           "" (cmd_arg "mgr self-test background start" "workload" "bogus")
           "bogus" (running "command_spam" good_host)).
  - reflexivity.
  - reflexivity.
  - simpl. intros [H|[H|[]]]; discriminate H.
Defined.

Lemma unknown_prefix_rejected_witness :
  handle_command "" (cmd "mgr self-test frobnicate") (at_rest good_host)
  = (Ret (-22, "", "Command not found 'mgr self-test frobnicate'"),
     at_rest good_host).
Proof.
  apply (unknown_prefix_rejected
           "" (cmd "mgr self-test frobnicate") "mgr self-test frobnicate"
           (at_rest good_host)).
  - reflexivity.
  - simpl. intros [H|[H|[H|[H|[H|[H|[]]]]]]]; discriminate H.
Defined.

Lemma stop_background_idempotent_witness :
  fst (handle_command "" (cmd "mgr self-test background stop")
                      (running "command_spam" good_host))
  = Ret (0, "", "Stopping background workload `command_spam`")
  /\ shared (snd (handle_command "" (cmd "mgr self-test background stop")
                                 (running "command_spam" good_host)))
     = (None, true).
Proof.
  pose proof (stop_background_idempotent
                "" (cmd "mgr self-test background stop")
                (running "command_spam" good_host) eq_refl)
    as (_ & Hrun & _).
  apply (Hrun "command_spam").
  - reflexivity.
  - discriminate.
Defined.

Lemma shutdown_only_by_shutdown_witness :
  _workload (snd (handle_command
                    "" (cmd_arg "mgr self-test background start"
                                "workload" "shutdown")
                    (at_rest good_host)))
  <> Some SHUTDOWN
  /\ handle_command "" (cmd_arg "mgr self-test background start"
                                "workload" "shutdown")
                    (at_rest good_host)
     = (Ret (-22, "", "Workload not found 'shutdown'"), at_rest good_host).
Proof.
  pose proof (shutdown_only_by_shutdown
                "" (cmd_arg "mgr self-test background start"
                            "workload" "shutdown")
                (at_rest good_host)) as (Hkeep & Hrej & _).
  split.
  - apply Hkeep. discriminate.
  - apply Hrej; reflexivity.
Defined.

Lemma config_get_passes_through_witness :
  handle_command "" (cmd_arg "mgr self-test config get" "key" "nokey")
                 (at_rest good_host)
  = (Ret (0, "None", ""),
     World None false good_host 0%nat
           [ECall (Self "get_config") [PStr "nokey"] (Ret PNone)]).
Proof.
  pose proof (config_get_passes_through
                "" (cmd_arg "mgr self-test config get" "key" "nokey") "nokey"
                (at_rest good_host) eq_refl) as (Hget & _).
  exact (Hget eq_refl).
Defined.

(** C8, as stated, fails: the key ["nokey"] is absent, the host answers
    [None], and the command returns the four characters ["None"], which is
    not an empty result. *)
Lemma config_get_absent_is_not_empty :
  fst (host_call (Self "get_config") [PStr "nokey"] good_host) = Ret PNone /\
  fst (handle_command "" (cmd_arg "mgr self-test config get" "key" "nokey")
                      (at_rest good_host))
  = Ret (0, "None", "") /\
  "None" <> "".
Proof. split_and!; [reflexivity | reflexivity | discriminate]. Qed.

Lemma self_test_run_outcome_witness :
  handle_command "" (cmd "mgr self-test run") (at_rest good_host)
  = (Ret (0, "", "Self-test succeeded"),
     snd (_self_test (at_rest good_host))) /\
  fst (_self_test_config (at_rest lossy_host)) = Raise (AssertionError "").
Proof.
  split.
  - pose proof (self_test_run_outcome
                  "" (cmd "mgr self-test run") (at_rest good_host) eq_refl)
      as (Hrun & _).
    exact Hrun.
  - pose proof (self_test_run_outcome
                  "" (cmd "mgr self-test run") (at_rest lossy_host) eq_refl)
      as (_ & _ & Hassert).
    rewrite (Hassert PNone lossy_host PNone lossy_host
                     eq_refl eq_refl eq_refl).
    reflexivity.
Defined.

(** C6, as stated, fails: on a host that drops configuration writes the
    first assertion of [_self_test_config] fails and the run command does
    not return a result; the [AssertionError] leaves [handle_command]. *)
Lemma self_test_failure_escapes :
  fst (handle_command "" (cmd "mgr self-test run") (at_rest lossy_host))
  = Raise (AssertionError "") /\
  is_ret (fst (handle_command "" (cmd "mgr self-test run")
                              (at_rest lossy_host))) = false.
Proof. split; vm_compute; reflexivity. Qed.

Lemma serve_transition_table_witness :
  run 2 Top (running "shutdown" good_host)
  = (Exited,
     World (Some "shutdown") false good_host 0%nat
           [ERead (Some "shutdown"); ERead (Some "shutdown");
            ELog "Shutting down..."]) /\
  coord_step Idle (at_rest good_host) = None /\
  run 3 Top (running "throw_exception" good_host)
  = (Crashed (RuntimeError "Synthetic exception in serve"),
     World (Some "throw_exception") false good_host 0%nat
           [ERead (Some "throw_exception"); ERead (Some "throw_exception");
            ERead (Some "throw_exception")]).
Proof.
  split_and!.
  - pose proof (serve_transition_table (running "shutdown" good_host))
      as (_ & Hshut & _).
    exact (Hshut eq_refl).
  - pose proof (serve_transition_table (at_rest good_host))
      as (_ & _ & _ & _ & Hblock & _).
    exact (Hblock eq_refl).
  - pose proof (serve_transition_table (running "throw_exception" good_host))
      as (_ & _ & Hthrow & _).
    exact (Hthrow eq_refl).
Defined.

Lemma command_spam_discipline_witness :
  0 <= in_flight (trace (snd (run 8 Top (running "command_spam" good_host))))
    <= 1 /\
  coord_step SpamCheck (World (Some "command_spam") true good_host 0%nat [])
  = Some (SpamClear,
          World (Some "command_spam") true good_host 0%nat [EIsSet true]) /\
  discipline (trace (snd (run 8 Top (running "command_spam" good_host))))
  = Some Sent.
Proof.
  pose proof command_spam_discipline
    as (_ & _ & Hflight & Hstop & _ & _ & _ & _ & Hdisc & _).
  split; [|split].
  - apply (Hflight (running "command_spam" good_host)
                   (fst (run 8 Top (running "command_spam" good_host)))
                   (snd (run 8 Top (running "command_spam" good_host)))).
    + reflexivity.
    + rewrite <- surjective_pairing. apply run_reachable.
  - exact (Hstop (World (Some "command_spam") true good_host 0%nat [])
                 eq_refl).
  - destruct (Hdisc (running "command_spam" good_host)
                    (fst (run 8 Top (running "command_spam" good_host)))
                    (snd (run 8 Top (running "command_spam" good_host)))
                    eq_refl)
      as (s & Hd & He).
    + rewrite <- surjective_pairing. apply run_reachable.
    + vm_compute in He. rewrite Hd. f_equal. exact He.
Defined.

Lemma remote_test_expected_failures_witness :
  exists msg,
    fst (handle_command "" (cmd "mgr self-test remote") (at_rest lenient_host))
    = Raise (RuntimeError msg) /\
    In msg EXPECTED_FAILURE_MESSAGES.
Proof.
  pose proof (remote_test_expected_failures
                "" (cmd "mgr self-test remote") (at_rest lenient_host)
                eq_refl) as (d & Ht & _ & Hfail & _).
  vm_compute in Ht. subst d.
  apply (Hfail (PStr "dashboard") (PStr "handle_command") PNone).
  cbn. tauto.
Defined.

(** A passing run of the remote command on the concrete host. *)
Example remote_test_passes :
  fst (handle_command "" (cmd "mgr self-test remote") (at_rest good_host))
  = Ret (0, "", "Successfully called").
Proof. vm_compute. reflexivity. Qed.

(** Start, a few iterations, stop: the body notices the event at its next
    loop test, clears it and hands back to [serve], which then waits. *)
Example spam_then_stop :
  let w1 := snd (handle_command
                   "" (cmd_arg "mgr self-test background start"
                               "workload" "command_spam")
                   (at_rest good_host)) in
  let c1 := run 30 Top w1 in
  let w2 := snd (handle_command "" (cmd "mgr self-test background stop")
                                (snd c1)) in
  let c2 := run 30 (fst c1) w2 in
  fst c2 = Idle /\ shared (snd c2) = (None, false) /\
  in_flight (trace (snd c2)) = 0.
Proof. vm_compute. auto. Qed.

(** * Further properties of the module *)

(** ** Start and stop requests *)

Section StartStop.
Context {RT : Runtime}.

Lemma in_existsb (name : string) (l : list string) :
  In name l -> existsb (String.eqb name) l = true.
Proof.
  intros Hin. apply existsb_exists.
  exact (ex_intro _ name (conj Hin (String.eqb_refl name))).
Qed.

Lemma registered_truthy (name : string) :
  In name WORKLOADS -> truthy (Some name) = true.
Proof. cbn. intros [<-|[<-|[]]]; reflexivity. Qed.

Lemma start_registered_eval
    (inbuf : string) (command : gmap string string) (name : string)
    (w : world) :
  command !! "prefix" = Some "mgr self-test background start" ->
  command !! "workload" = Some name ->
  In name WORKLOADS ->
  handle_command inbuf command w
  = (Ret (0, "", "Running `" +:+ name +:+ "` in background"),
     World (Some name) true (host w) (gen w)
           (trace w ++ [EWrite (Some name); ESet; ERead (Some name)])).
Proof.
  intros Hp Hw Hin. dispatch Hp.
  rewrite !(command_get_eval _ _ _ _ Hw).
  rewrite (in_existsb _ _ Hin). cbn.
  rewrite (command_get_eval _ _ _ _ Hw). cbn. unfold emit. cbn.
  by rewrite <- !app_assoc.
Qed.

Lemma stop_running_eval
    (inbuf : string) (command : gmap string string) (name : string)
    (w : world) :
  command !! "prefix" = Some "mgr self-test background stop" ->
  _workload w = Some name ->
  truthy (Some name) = true ->
  handle_command inbuf command w
  = (Ret (0, "", "Stopping background workload `" +:+ name +:+ "`"),
     World None true (host w) (gen w)
           (trace w ++ [ERead (Some name); ERead (Some name);
                        EWrite None; ESet])).
Proof.
  intros Hp Hw Htr. dispatch Hp. cbn. rewrite Hw, Htr. cbn.
  unfold emit, ret. cbn. rewrite !Hw. cbn. by rewrite <- !app_assoc.
Qed.

(** X1: a start request for a registered name returns status 0 and the
    message naming it, assigns the name to [_workload], sets the event, and
    does nothing else: the host and the generator are as before, and the
    effects are the assignment, [set()] and the read for the message. *)
Theorem start_registered_workload
    (inbuf : string) (command : gmap string string) (name : string)
    (w : world) :
  command !! "prefix" = Some "mgr self-test background start" ->
  command !! "workload" = Some name ->
  In name WORKLOADS ->
  handle_command inbuf command w
  = (Ret (0, "", "Running `" +:+ name +:+ "` in background"),
     World (Some name) true (host w) (gen w)
           (trace w ++ [EWrite (Some name); ESet; ERead (Some name)])).
Proof. apply start_registered_eval. Qed.

(** X2: a command dictionary that lacks the key the handler looks up ends
    with a [KeyError] naming that key, before any effect: no prefix at all,
    a start request without [workload], a config request without [key]. *)
Theorem missing_argument_raises_KeyError
    (inbuf : string) (command : gmap string string) (w : world) :
  (command !! "prefix" = None ->
   handle_command inbuf command w = (Raise (KeyError "prefix"), w)) /\
  (command !! "prefix" = Some "mgr self-test background start" ->
   command !! "workload" = None ->
   handle_command inbuf command w = (Raise (KeyError "workload"), w)) /\
  (command !! "prefix" = Some "mgr self-test config get" ->
   command !! "key" = None ->
   handle_command inbuf command w = (Raise (KeyError "key"), w)) /\
  (command !! "prefix" = Some "mgr self-test config get_localized" ->
   command !! "key" = None ->
   handle_command inbuf command w = (Raise (KeyError "key"), w)).
Proof.
  split_and!.
  - intros Hp. unfold handle_command, bind, prefix_is, command_get.
    by rewrite Hp.
  - intros Hp Hw. dispatch Hp. unfold command_get. by rewrite Hw.
  - intros Hp Hk. dispatch Hp. unfold command_get. by rewrite Hk.
  - intros Hp Hk. dispatch Hp. unfold command_get. by rewrite Hk.
Qed.

(** X3: a start request for a registered name followed by a stop request:
    the stop returns status 0 and names the workload just started, and the
    two together leave [_workload] at [None] with the event set and the host
    untouched. *)
Theorem start_then_stop
    (inbuf inbuf' : string) (start stop : gmap string string)
    (name : string) (w : world) :
  start !! "prefix" = Some "mgr self-test background start" ->
  start !! "workload" = Some name ->
  In name WORKLOADS ->
  stop !! "prefix" = Some "mgr self-test background stop" ->
  handle_command inbuf' stop (snd (handle_command inbuf start w))
  = (Ret (0, "", "Stopping background workload `" +:+ name +:+ "`"),
     World None true (host w) (gen w)
           (trace w ++ [EWrite (Some name); ESet; ERead (Some name);
                        ERead (Some name); ERead (Some name);
                        EWrite None; ESet])).
Proof.
  intros Hp Hw Hin Hq.
  rewrite (start_registered_eval _ _ _ _ Hp Hw Hin). cbn [snd].
  rewrite (stop_running_eval
             inbuf' stop name
             (World (Some name) true (host w) (gen w)
                    (trace w
                     ++ [EWrite (Some name); ESet; ERead (Some name)]))
             Hq eq_refl (registered_truthy _ Hin)).
  cbn. by rewrite <- !app_assoc.
Qed.

(** X4: start requests are idempotent.  Whatever the [workload] argument
    (registered, unknown or missing), delivering the same start request a
    second time returns what the first returned and leaves both shared
    attributes as the first left them. *)
Theorem start_twice
    (inbuf : string) (command : gmap string string) (w : world) :
  command !! "prefix" = Some "mgr self-test background start" ->
  fst (handle_command inbuf command (snd (handle_command inbuf command w)))
  = fst (handle_command inbuf command w) /\
  shared (snd (handle_command inbuf command
                              (snd (handle_command inbuf command w))))
  = shared (snd (handle_command inbuf command w)).
Proof.
  intros Hp. destruct (command !! "workload") as [name|] eqn:Hw.
  - destruct (existsb (String.eqb name) WORKLOADS) eqn:Hex.
    + apply existsb_eqb_In in Hex.
      by rewrite !(start_registered_eval _ _ _ _ Hp Hw Hex).
    + assert (Hnot : ~ In name WORKLOADS).
      { intros Hin. by rewrite (in_existsb _ _ Hin) in Hex. }
      by rewrite !(start_not_registered _ _ _ _ Hp Hw Hnot).
  - assert (Hk : forall w0, handle_command inbuf command w0
                            = (Raise (KeyError "workload"), w0)).
    { intros w0. dispatch Hp. unfold command_get. by rewrite Hw. }
    by rewrite !Hk.
Qed.

End StartStop.

(** ** The command thread as seen from [serve] *)

Section KeepsGen.
Context {RT : Runtime}.

Lemma keeps_gen_ret {A : Type} (a : A) : keeps_gen (ret a).
Proof. by intros w. Qed.

Lemma keeps_gen_raise {A : Type} (e : exn) : keeps_gen (raise (A:=A) e).
Proof. by intros w. Qed.

Lemma keeps_gen_lift {A : Type} (o : outcome A) : keeps_gen (lift o).
Proof. by intros w. Qed.

Lemma keeps_gen_bind {A B : Type} (m : M A) (k : A -> M B) :
  keeps_gen m -> (forall a, keeps_gen (k a)) -> keeps_gen (bind m k).
Proof.
  intros Hm Hk w. unfold bind. specialize (Hm w).
  destruct (m w) as [[a|e] w1]; cbn in Hm |- *; [|done].
  by rewrite (Hk a w1).
Qed.

Lemma keeps_gen_call (t : target) (args : list pyval) :
  keeps_gen (call t args).
Proof.
  intros w. unfold call. by destruct (host_call t args (host w)) as [r h].
Qed.

Lemma keeps_gen_log (msg : string) : keeps_gen (log_info msg).
Proof. by intros w. Qed.

Lemma keeps_gen_read : keeps_gen read_workload.
Proof. by intros w. Qed.

Lemma keeps_gen_write (v : option string) : keeps_gen (write_workload v).
Proof. by intros w. Qed.

Lemma keeps_gen_set : keeps_gen event_set.
Proof. by intros w. Qed.

Lemma keeps_gen_assert (b : bool) : keeps_gen (py_assert b).
Proof. by destruct b. Qed.

Lemma keeps_gen_for_each {A : Type} (items : list A) (body : A -> M unit) :
  (forall x, keeps_gen (body x)) -> keeps_gen (for_each items body).
Proof.
  intros Hb. induction items as [|x rest IH]; cbn.
  - apply keeps_gen_ret.
  - apply keeps_gen_bind; [apply Hb | intros _; exact IH].
Qed.

Lemma keeps_gen_for_in (o : pyval) (body : pyval -> M unit) :
  (forall x, keeps_gen (body x)) -> keeps_gen (for_in o body).
Proof.
  intros Hb. apply keeps_gen_bind; [apply keeps_gen_lift|].
  intros items. by apply keeps_gen_for_each.
Qed.

Lemma keeps_gen_expect_raises (cls : string) (body : M pyval) (msg : string) :
  keeps_gen body -> keeps_gen (expect_raises cls body msg).
Proof.
  intros Hb w. unfold expect_raises. specialize (Hb w).
  destruct (body w) as [[v|e] w1]; cbn in Hb |- *; [done|].
  by destruct (isinstance e cls).
Qed.

End KeepsGen.

Create HintDb keeps_gen.
#[export] Hint Resolve keeps_gen_ret keeps_gen_raise keeps_gen_lift
  keeps_gen_call keeps_gen_log keeps_gen_read keeps_gen_write keeps_gen_set
  keeps_gen_assert : keeps_gen.

Ltac keeps_gen_tac :=
  repeat first
    [ apply keeps_gen_bind; [|intros ?]
    | apply keeps_gen_for_each; intros ?
    | apply keeps_gen_for_in; intros ?
    | apply keeps_gen_expect_raises
    | solve [auto with keeps_gen]
    | match goal with
      | |- keeps_gen (if ?b then _ else _) => destruct b
      | |- keeps_gen (match ?x with _ => _ end) => destruct x
      end ].

Section CommandThread.
Context {RT : Runtime}.

Lemma keeps_gen_handle_command (inbuf : string)
      (command : gmap string string) :
  keeps_gen (handle_command inbuf command).
Proof.
  unfold handle_command, prefix_is, command_get, _self_test,
    _self_test_osdmap, _self_test_getters, _self_test_config,
    _self_test_store, _self_test_misc, _self_test_perf_counters,
    _test_remote_calls.
  keeps_gen_tac.
Qed.

Lemma world_eta (w : world) :
  w = World (_workload w) (_event w) (host w) (gen w) (trace w).
Proof. by destruct w. Qed.

Lemma interference_path (w w' : world) :
  gen w' = gen w ->
  shared w' = shared w \/ _event w' = true ->
  rtc interference (with_trace (trace w') w) w'.
Proof.
  intros Hg Hs. rewrite (world_eta w'). unfold with_trace.
  eapply rtc_l; [apply (interf_host _ (host w'))|]. cbn.
  destruct Hs as [[= Hw He]|He].
  - rewrite Hw, He, Hg. apply rtc_refl.
  - eapply rtc_l; [apply (interf_write _ (_workload w'))|]. cbn.
    eapply rtc_l; [apply interf_set|]. cbn. rewrite He, Hg. apply rtc_refl.
Qed.

(** X5: whatever a command or [shutdown()] does to the state the background
    thread sees (the two shared attributes and the host) is a sequence of
    the steps of [interference]: a move of the host state, an assignment to
    [_workload], a [set()].  In particular neither ever clears a set event,
    and neither draws from the random generator. *)
Theorem commands_act_as_interference
    (inbuf : string) (command : gmap string string) (w : world) :
  rtc interference
      (with_trace (trace (snd (handle_command inbuf command w))) w)
      (snd (handle_command inbuf command w)) /\
  rtc interference (with_trace (trace (snd (shutdown w))) w)
      (snd (shutdown w)) /\
  (_event w = true ->
   _event (snd (handle_command inbuf command w)) = true /\
   _event (snd (shutdown w)) = true) /\
  gen (snd (handle_command inbuf command w)) = gen w.
Proof.
  pose proof (keeps_gen_handle_command inbuf command w) as Hg.
  destruct (handle_command_cases inbuf command w)
    as (d & Ht & [[Hs Hd] | [(name & Hin & Hs & ->) | (Htr & Hs & ->)]]).
  - split_and!; [apply interference_path; auto
                |apply interference_path; cbn; auto| |done].
    intros He. injection Hs as _ Hs. by rewrite Hs.
  - split_and!; [apply interference_path; [done|right; by injection Hs]
                |apply interference_path; cbn; auto| |done].
    intros He. by injection Hs.
  - split_and!; [apply interference_path; [done|right; by injection Hs]
                |apply interference_path; cbn; auto| |done].
    intros He. by injection Hs.
Qed.

Lemma apply_op_workload (w : world) (o : ctl_op) :
  In (_workload w) DESIRED_WORKLOADS ->
  In (_workload (apply_op w o)) DESIRED_WORKLOADS.
Proof.
  intros Hw. destruct o as [inbuf command|]; cbn [apply_op].
  - destruct (handle_command_cases inbuf command w)
      as (d & Ht & [[Hs Hd] | [(name & Hin & Hs & ->) | (Htr & Hs & ->)]]);
      injection Hs as Hs _; rewrite Hs; [done| |by left].
    cbn in Hin |- *. destruct Hin as [<-|[<-|[]]]; auto.
  - cbn. auto.
Qed.

(** X6: [_workload] only ever holds one of four values.  Starting from
    [__init__], after any sequence of commands (with any dictionaries) and
    [shutdown()] calls it is [None], ["command_spam"], ["throw_exception"] or
    ["shutdown"]; so its truth value, which the stop request tests, is
    exactly "not [None]". *)
Theorem workload_in_enumeration
    (ops : list ctl_op) (h : hstate) (g : rng) :
  In (_workload (apply_ops ops (__init__ h g))) DESIRED_WORKLOADS /\
  (truthy (_workload (apply_ops ops (__init__ h g))) = true <->
   _workload (apply_ops ops (__init__ h g)) <> None).
Proof.
  assert (Hinv : forall w, In (_workload w) DESIRED_WORKLOADS ->
                           In (_workload (apply_ops ops w)) DESIRED_WORKLOADS).
  { induction ops as [|o ops IH]; intros w Hw; cbn; [done|].
    apply IH. by apply apply_op_workload. }
  assert (Hin : In (_workload (apply_ops ops (__init__ h g)))
                   DESIRED_WORKLOADS).
  { apply Hinv. cbn. auto. }
  split; [exact Hin|].
  cbn in Hin. destruct Hin as [<-|[<-|[<-|[<-|[]]]]]; cbn; split; congruence.
Qed.

(** X7: the remote command neither reads nor writes a shared attribute:
    all it does is call the host, and it leaves [_workload] and the event as
    they were whether the test passes, fails or is cut short. *)
Theorem remote_command_only_calls_host
    (inbuf : string) (command : gmap string string) (w : world) :
  command !! "prefix" = Some "mgr self-test remote" ->
  shared (snd (handle_command inbuf command w)) = shared w /\
  exists d,
    trace (snd (handle_command inbuf command w)) = (trace w ++ d)%list /\
    forallb host_only d = true.
Proof.
  intros Hp. dispatch Hp.
  destruct (quiet_test_remote_calls w) as (Hs & d & Ht & Hd).
  destruct (_test_remote_calls w) as [[u|e] w1]; cbn in *; eauto.
Qed.

End CommandThread.

(** ** The background thread and the requests it serves *)

Ltac line_cases :=
  repeat match goal with
         | |- context [host_call ?t ?a ?h] =>
             destruct (host_call t a h) as [[?|?] ?]; cbn
         | |- context [py_getitem_str ?o ?k] =>
             destruct (py_getitem_str o k) as [?|?]; cbn
         | |- context [py_len ?o] => destruct (py_len o) as [?|?]; cbn
         | |- context [py_unpack3 ?o] => destruct (py_unpack3 o) as [?|?]; cbn
         | |- context [random_random ?g] =>
             destruct (random_random g) as [? ?]; cbn
         | |- context [workload_is ?v ?n] => destruct (workload_is v n); cbn
         | |- context [_event ?w] => destruct (_event w); cbn
         end.

Section Handshake.
Context {RT : Runtime}.

Lemma coord_step_shared (p : pc) (w : world) :
  match coord_step p w with
  | Some (p', w') =>
      _workload w' = _workload w /\
      (_event w' = _event w \/
       (_event w = true /\ _event w' = false /\
        (p = Woken \/ p = SpamClear)))
  | None => True
  end.
Proof.
  destruct w as [wl ev h g tr]. unfold coord_step.
  destruct p, ev; cbn; unfold bind, call, random, lift; cbn; line_cases;
    auto 6.
Qed.

(** X8: the background thread never assigns [_workload] and never sets the
    event.  The only change it makes to a shared attribute is to clear a set
    event, and that happens at exactly two lines: after [wait()] in [serve]
    and after the loop in [_command_spam]. *)
Theorem thread_only_reads_and_clears (p p' : pc) (w w' : world) :
  coord_step p w = Some (p', w') ->
  _workload w' = _workload w /\
  (_event w' = _event w \/
   (_event w = true /\ _event w' = false /\ (p = Woken \/ p = SpamClear))).
Proof.
  intros Hco. pose proof (coord_step_shared p w) as H.
  by rewrite Hco in H.
Qed.

Lemma run_halted (n : nat) (p : pc) (w : world) :
  coord_step p w = None -> run n p w = (p, w).
Proof. intros Hco. destruct n as [|n]; cbn; [done|]. by rewrite Hco. Qed.

(** X9: a start request for ["command_spam"] takes effect wherever the
    thread is when it next looks.  Waiting in [serve], it returns from
    [wait()], clears the event, reads the new value and enters
    [_command_spam], whose first loop test finds the event cleared.  At the
    top of the loop, or at the loop test of a body that is already running,
    the set event first sends it through the exit of the body, which clears
    the event, and then back into the body.  In each case the first line of
    an iteration is reached without any host call. *)
Theorem start_wakes_the_thread
    (inbuf : string) (command : gmap string string) (w : world) :
  command !! "prefix" = Some "mgr self-test background start" ->
  command !! "workload" = Some WORKLOAD_COMMAND_SPAM ->
  fst (run 5 Idle (snd (handle_command inbuf command w))) = SpamOsdmap /\
  fst (run 8 Top (snd (handle_command inbuf command w))) = SpamOsdmap /\
  fst (run 6 SpamCheck (snd (handle_command inbuf command w))) = SpamOsdmap /\
  shared (snd (run 5 Idle (snd (handle_command inbuf command w))))
  = (Some WORKLOAD_COMMAND_SPAM, false) /\
  shared (snd (run 8 Top (snd (handle_command inbuf command w))))
  = (Some WORKLOAD_COMMAND_SPAM, false) /\
  shared (snd (run 6 SpamCheck (snd (handle_command inbuf command w))))
  = (Some WORKLOAD_COMMAND_SPAM, false) /\
  host (snd (run 5 Idle (snd (handle_command inbuf command w)))) = host w /\
  host (snd (run 8 Top (snd (handle_command inbuf command w)))) = host w /\
  host (snd (run 6 SpamCheck (snd (handle_command inbuf command w))))
  = host w.
Proof.
  intros Hp Hw.
  rewrite (start_registered_eval _ _ _ _ Hp Hw); [|cbn; auto].
  cbn [snd]. by cbn.
Qed.

(** X10: a start request for ["throw_exception"] delivered while the thread
    waits ends the thread with the uncaught [RuntimeError].  From then on
    commands are still answered (a later start request returns status 0 as
    usual), but the thread is gone: whatever operations follow, it takes no
    step and performs no effect. *)
Theorem throw_exception_ends_the_thread
    (inbuf : string) (command : gmap string string) (w : world) :
  command !! "prefix" = Some "mgr self-test background start" ->
  command !! "workload" = Some WORKLOAD_THROW_EXCEPTION ->
  fst (run 5 Idle (snd (handle_command inbuf command w)))
  = Crashed (RuntimeError "Synthetic exception in serve") /\
  forall (ops : list ctl_op) (n : nat),
    run n (Crashed (RuntimeError "Synthetic exception in serve"))
        (apply_ops ops (snd (run 5 Idle (snd (handle_command inbuf command w)))))
    = (Crashed (RuntimeError "Synthetic exception in serve"),
       apply_ops ops (snd (run 5 Idle (snd (handle_command inbuf command w))))).
Proof.
  intros Hp Hw. split.
  - rewrite (start_registered_eval _ _ _ _ Hp Hw); [|cbn; auto].
    cbn [snd]. by cbn.
  - intros ops n. by apply run_halted.
Qed.

(** X11: [shutdown()] ends [serve] cleanly from wherever the thread looks
    next: waiting in [serve] it exits within four steps, at the top of the
    loop within two, and at the loop test of [_command_spam] it leaves the
    body and exits within five; in no case is the host called. *)
Theorem shutdown_reaches_exit (w : world) :
  fst (run 4 Idle (snd (shutdown w))) = Exited /\
  fst (run 2 Top (snd (shutdown w))) = Exited /\
  fst (run 5 SpamCheck (snd (shutdown w))) = Exited /\
  host (snd (run 4 Idle (snd (shutdown w)))) = host w /\
  host (snd (run 2 Top (snd (shutdown w)))) = host w /\
  host (snd (run 5 SpamCheck (snd (shutdown w)))) = host w.
Proof. by cbn. Qed.

(** X12: a stop request delivered after [shutdown()], before the thread has
    looked at [_workload], cancels the shutdown: ["shutdown"] counts as a
    running workload, the stop replaces it by [None] and reports it as
    stopped, and the thread, left alone from the top of the loop, never
    exits; from the eighth step on it is blocked in [wait()]. *)
Theorem stop_cancels_shutdown
    (inbuf : string) (command : gmap string string) (w : world) :
  command !! "prefix" = Some "mgr self-test background stop" ->
  fst (handle_command inbuf command (snd (shutdown w)))
  = Ret (0, "", "Stopping background workload `shutdown`") /\
  shared (snd (handle_command inbuf command (snd (shutdown w))))
  = (None, true) /\
  forall n,
    fst (run n Top (snd (handle_command inbuf command (snd (shutdown w)))))
    <> Exited /\
    (8 <= n ->
     fst (run n Top (snd (handle_command inbuf command (snd (shutdown w)))))
     = Idle)%nat.
Proof.
  intros Hp.
  rewrite (stop_running_eval inbuf command SHUTDOWN (snd (shutdown w))
                             Hp eq_refl eq_refl).
  split_and!; [done|done|]. intros n. cbn [snd].
  do 8 (destruct n as [|n]; [split; [by cbn | lia]|]).
  split; [|intros _]; cbn; by rewrite run_halted.
Qed.

End Handshake.

(** ** Iterations of [_command_spam] *)

Ltac run_cases :=
  repeat (cbn; unfold coord_step, bind, call, random, lift, emit; cbn;
          line_cases).

Section Iterations.
Context {RT : Runtime}.

(** X13: one turn of the loop of [_command_spam].  From a loop test that
    finds the event cleared, nine steps of the thread either bring it back
    to the loop test, having submitted exactly one command and received
    exactly one result, or end it with the exception of a failed line; in
    both cases [_workload] and the event are as they were, and at most one
    command was submitted. *)
Theorem spam_iteration (w : world) :
  _event w = false ->
  (fst (run 9 SpamCheck w) = SpamCheck /\
   submitted (trace (snd (run 9 SpamCheck w))) = submitted (trace w) + 1 /\
   awaited (trace (snd (run 9 SpamCheck w))) = awaited (trace w) + 1 /\
   shared (snd (run 9 SpamCheck w)) = shared w)
  \/ (exists e,
         fst (run 9 SpamCheck w) = Crashed e /\
         submitted (trace (snd (run 9 SpamCheck w)))
         <= submitted (trace w) + 1 /\
         shared (snd (run 9 SpamCheck w)) = shared w).
Proof.
  destruct w as [wl ev h g tr]. cbn. intros ->. run_cases;
    first [ left; split_and!; [done| | |done];
            rewrite ?submitted_snoc, ?awaited_snoc; cbn; lia
          | right; eexists; split_and!; [done| |done];
            rewrite ?submitted_snoc; cbn; lia ].
Qed.

(** X14: stopping is cooperative and bounded.  With [_workload] at [None]
    and the event set, which is how a stop request leaves them, the thread
    started at any line of [_command_spam] and left alone is, after fifteen
    steps, either blocked in [wait()] in [serve] with the event cleared,
    having submitted at most one more command (the one of the turn that was
    under way), or ended by the exception of a failed line. *)
Theorem stop_is_cooperative (p : pc) (w : world) :
  in_body p = true ->
  _workload w = None ->
  _event w = true ->
  (fst (run 15 p w) = Idle /\
   shared (snd (run 15 p w)) = (None, false) /\
   submitted (trace (snd (run 15 p w))) <= submitted (trace w) + 1)
  \/ exists e, fst (run 15 p w) = Crashed e.
Proof.
  destruct w as [wl ev h g tr]. cbn. intros Hp -> ->.
  destruct p; try discriminate Hp; clear Hp; run_cases;
    first [ left; split_and!; [done|done|];
            rewrite ?submitted_snoc; cbn; lia
          | right; by eexists ].
Qed.

(** X15: the status of a command is not looked at.  Whatever three values
    [result.wait()] returns, an error status included, the thread goes on to
    the next loop test.  A returned list of fewer or of more than three
    values ends the thread with the [ValueError] of the unpacking: "not
    enough values to unpack (expected 3, got n)", respectively "too many
    values to unpack (expected 3)". *)
Theorem command_status_is_ignored
    (result : pyval) (w : world) (t : pyval) (h : hstate) :
  host_call (Meth result "wait") [] (host w) = (Ret t, h) ->
  (forall r outb outs,
      t = PList [r; outb; outs] ->
      coord_step (SpamAwait result) w
      = Some (SpamCheck,
              World (_workload w) (_event w) h (gen w)
                    (trace w ++ [ECall (Meth result "wait") [] (Ret t)]))) /\
  (forall items,
      t = PList items ->
      (List.length items < 3)%nat ->
      coord_step (SpamAwait result) w
      = Some (Crashed
                (ValueError ("not enough values to unpack (expected 3, got "
                             +:+ pretty (List.length items) +:+ ")")),
              World (_workload w) (_event w) h (gen w)
                    (trace w ++ [ECall (Meth result "wait") [] (Ret t)]))) /\
  (forall items,
      t = PList items ->
      (3 < List.length items)%nat ->
      coord_step (SpamAwait result) w
      = Some (Crashed (ValueError "too many values to unpack (expected 3)"),
              World (_workload w) (_event w) h (gen w)
                    (trace w ++ [ECall (Meth result "wait") [] (Ret t)]))).
Proof.
  intros Hwait. split_and!.
  - intros r outb outs ->. unfold coord_step. cbn. unfold bind, call.
    by rewrite Hwait.
  - intros items -> Hlen. unfold coord_step. cbn. unfold bind, call, lift.
    rewrite Hwait. cbn.
    destruct items as [|a [|b [|c [|d items]]]]; cbn in Hlen |- *;
      try lia; reflexivity.
  - intros items -> Hlen. unfold coord_step. cbn. unfold bind, call, lift.
    rewrite Hwait. cbn.
    destruct items as [|a [|b [|c [|d items]]]]; cbn in Hlen |- *;
      try lia; reflexivity.
Qed.

End Iterations.

(** ** Edges of the self-test procedures *)

Section SelfTestEdges.
Context {RT : Runtime}.

Lemma set_order_nil (A : Type) : set_order A [] = [].
Proof. apply Permutation_nil_r. apply set_order_perm. Qed.

(** X16: the remote command needs a disabled module to test with.  When the
    call into [influx] returns and the manager map lists no available module
    that is not enabled, [list(disabled_modules)[0]] fails: the command ends
    with an [IndexError] after these two host calls and none of the three
    expected-failure calls is made. *)
Theorem no_disabled_module_is_IndexError
    (inbuf : string) (command : gmap string string) (w : world)
    (v0 mgr_map : pyval) (h0 h1 : hstate) :
  command !! "prefix" = Some "mgr self-test remote" ->
  host_call (Self "remote")
            [PStr "influx"; PStr "handle_command"; PStr ""; self_test_cmd]
            (host w) = (Ret v0, h0) ->
  host_call (Self "get") [PStr "mgr_map"] h0 = (Ret mgr_map, h1) ->
  disabled_modules_of mgr_map = Ret [] ->
  handle_command inbuf command w
  = (Raise (IndexError "list index out of range"),
     World (_workload w) (_event w) h1 (gen w)
           (trace w
            ++ [ECall (Self "remote")
                      [PStr "influx"; PStr "handle_command"; PStr "";
                       self_test_cmd] (Ret v0);
                ECall (Self "get") [PStr "mgr_map"] (Ret mgr_map)])).
Proof.
  intros Hp Hcall Hget Hnone. dispatch Hp.
  unfold _test_remote_calls, bind, call, lift, emit. cbn.
  rewrite Hcall. cbn. rewrite Hget. cbn. rewrite Hnone. cbn.
  rewrite set_order_nil. cbn. by rewrite <- app_assoc.
Qed.

(** X17: the line ["Finished self-test procedure."] is logged by
    [_self_test_osdmap], the first of the six parts.  When that part
    returns, the line is the last thing logged so far, and the getters,
    configuration, store, miscellaneous and counter parts run after it; a
    run that fails in one of them has already logged it. *)
Theorem finished_is_logged_after_osdmap (w w1 : world) :
  _self_test_osdmap (emit (ELog "Running self-test procedure...") w)
  = (Ret tt, w1) ->
  (exists pre, trace w1 = (pre ++ [ELog "Finished self-test procedure."])%list)
  /\ _self_test w
     = bind _self_test_getters (fun _ =>
       bind _self_test_config (fun _ =>
       bind _self_test_store (fun _ =>
       bind _self_test_misc (fun _ => _self_test_perf_counters)))) w1.
Proof.
  intros Hos. split.
  - revert Hos. unfold _self_test_osdmap, bind, call, log_info.
    repeat (destruct (host_call _ _ _) as [[?|?] ?]; cbn;
            try discriminate).
    intros [= <-]. cbn. by eexists.
  - unfold _self_test at 1. unfold bind at 1 2. cbn. by rewrite Hos.
Qed.

End SelfTestEdges.

(** ** Further runs on the concrete hosts *)

Lemma start_registered_workload_witness :
  handle_command "" (cmd_arg "mgr self-test background start"
                             "workload" "throw_exception")
                 (at_rest good_host)
  = (Ret (0, "", "Running `throw_exception` in background"),
     World (Some "throw_exception") true good_host 0%nat
           [EWrite (Some "throw_exception"); ESet;
            ERead (Some "throw_exception")]).
Proof.
  apply (start_registered_workload
           "" (cmd_arg "mgr self-test background start"
                       "workload" "throw_exception")
           "throw_exception" (at_rest good_host)).
  - reflexivity.
  - reflexivity.
  - simpl. right. left. reflexivity.
Defined.

Lemma missing_argument_raises_KeyError_witness :
  handle_command "" (∅ : gmap string string) (at_rest good_host)
  = (Raise (KeyError "prefix"), at_rest good_host) /\
  handle_command "" (cmd "mgr self-test background start") (at_rest good_host)
  = (Raise (KeyError "workload"), at_rest good_host) /\
  handle_command "" (cmd "mgr self-test config get") (at_rest good_host)
  = (Raise (KeyError "key"), at_rest good_host).
Proof.
  split_and!.
  - pose proof (missing_argument_raises_KeyError
                  "" (∅ : gmap string string) (at_rest good_host))
      as (H & _).
    exact (H eq_refl).
  - pose proof (missing_argument_raises_KeyError
                  "" (cmd "mgr self-test background start")
                  (at_rest good_host)) as (_ & H & _).
    exact (H eq_refl eq_refl).
  - pose proof (missing_argument_raises_KeyError
                  "" (cmd "mgr self-test config get") (at_rest good_host))
      as (_ & _ & H & _).
    exact (H eq_refl eq_refl).
Defined.

Lemma start_then_stop_witness :
  fst (handle_command
         "" (cmd "mgr self-test background stop")
         (snd (handle_command
                 "" (cmd_arg "mgr self-test background start"
                             "workload" "command_spam")
                 (at_rest good_host))))
  = Ret (0, "", "Stopping background workload `command_spam`").
Proof.
  rewrite (start_then_stop
             "" "" (cmd_arg "mgr self-test background start"
                            "workload" "command_spam")
             (cmd "mgr self-test background stop") "command_spam"
             (at_rest good_host) eq_refl eq_refl
             (or_introl eq_refl) eq_refl).
  reflexivity.
Defined.

Lemma start_twice_witness :
  shared (snd (handle_command
                 "" (cmd_arg "mgr self-test background start"
                             "workload" "command_spam")
                 (snd (handle_command
                         "" (cmd_arg "mgr self-test background start"
                                     "workload" "command_spam")
                         (at_rest good_host)))))
  = shared (snd (handle_command
                   "" (cmd_arg "mgr self-test background start"
                               "workload" "command_spam")
                   (at_rest good_host))).
Proof.
  pose proof (start_twice
                "" (cmd_arg "mgr self-test background start"
                            "workload" "command_spam")
                (at_rest good_host) eq_refl) as (_ & H).
  exact H.
Defined.

Lemma commands_act_as_interference_witness :
  _event (snd (handle_command
                 "" (cmd "mgr self-test run")
                 (World None true good_host 0%nat []))) = true.
Proof.
  pose proof (commands_act_as_interference
                "" (cmd "mgr self-test run")
                (World None true good_host 0%nat [])) as (_ & _ & H & _).
  exact (proj1 (H eq_refl)).
Defined.

Lemma remote_command_only_calls_host_witness :
  shared (snd (handle_command "" (cmd "mgr self-test remote")
                              (running "command_spam" lenient_host)))
  = (Some "command_spam", false).
Proof.
  pose proof (remote_command_only_calls_host
                "" (cmd "mgr self-test remote")
                (running "command_spam" lenient_host) eq_refl) as (H & _).
  exact H.
Defined.

Lemma thread_only_reads_and_clears_witness :
  _workload (World (Some "command_spam") false good_host 0%nat [EClear])
  = Some "command_spam" /\
  (false = true \/ (true = true /\ false = false /\
                    (SpamClear = Woken \/ SpamClear = SpamClear))).
Proof.
  exact (thread_only_reads_and_clears
           SpamClear SpamLeave
           (World (Some "command_spam") true good_host 0%nat [])
           (World (Some "command_spam") false good_host 0%nat [EClear])
           eq_refl).
Defined.

Lemma start_wakes_the_thread_witness :
  fst (run 5 Idle
           (snd (handle_command
                   "" (cmd_arg "mgr self-test background start"
                               "workload" "command_spam")
                   (at_rest good_host))))
  = SpamOsdmap.
Proof.
  pose proof (start_wakes_the_thread
                "" (cmd_arg "mgr self-test background start"
                            "workload" "command_spam")
                (at_rest good_host) eq_refl eq_refl) as (H & _).
  exact H.
Defined.

Lemma throw_exception_ends_the_thread_witness :
  fst (run 5 Idle
           (snd (handle_command
                   "" (cmd_arg "mgr self-test background start"
                               "workload" "throw_exception")
                   (at_rest good_host))))
  = Crashed (RuntimeError "Synthetic exception in serve").
Proof.
  pose proof (throw_exception_ends_the_thread
                "" (cmd_arg "mgr self-test background start"
                            "workload" "throw_exception")
                (at_rest good_host) eq_refl eq_refl) as (H & _).
  exact H.
Defined.

Lemma stop_cancels_shutdown_witness :
  fst (run 20 Top
           (snd (handle_command "" (cmd "mgr self-test background stop")
                                (snd (shutdown (at_rest good_host))))))
  = Idle.
Proof.
  pose proof (stop_cancels_shutdown
                "" (cmd "mgr self-test background stop")
                (at_rest good_host) eq_refl) as (_ & _ & H).
  apply (H 20%nat). lia.
Defined.

Lemma spam_iteration_witness :
  (fst (run 9 SpamCheck (running "command_spam" good_host)) = SpamCheck /\
   submitted (trace (snd (run 9 SpamCheck (running "command_spam" good_host))))
   = submitted (trace (running "command_spam" good_host)) + 1 /\
   awaited (trace (snd (run 9 SpamCheck (running "command_spam" good_host))))
   = awaited (trace (running "command_spam" good_host)) + 1 /\
   shared (snd (run 9 SpamCheck (running "command_spam" good_host)))
   = shared (running "command_spam" good_host))
  \/ (exists e,
         fst (run 9 SpamCheck (running "command_spam" good_host)) = Crashed e /\
         submitted
           (trace (snd (run 9 SpamCheck (running "command_spam" good_host))))
         <= submitted (trace (running "command_spam" good_host)) + 1 /\
         shared (snd (run 9 SpamCheck (running "command_spam" good_host)))
         = shared (running "command_spam" good_host)).
Proof.
  exact (spam_iteration (running "command_spam" good_host) eq_refl).
Defined.

Lemma stop_is_cooperative_witness :
  (fst (run 15 (SpamDump (PObj 1)) (World None true good_host 0%nat []))
   = Idle /\
   shared (snd (run 15 (SpamDump (PObj 1))
                    (World None true good_host 0%nat [])))
   = (None, false) /\
   submitted (trace (snd (run 15 (SpamDump (PObj 1))
                              (World None true good_host 0%nat []))))
   <= submitted (trace (World None true good_host 0%nat [])) + 1)
  \/ exists e,
      fst (run 15 (SpamDump (PObj 1)) (World None true good_host 0%nat []))
      = Crashed e.
Proof.
  exact (stop_is_cooperative (SpamDump (PObj 1))
                             (World None true good_host 0%nat [])
                             eq_refl eq_refl eq_refl).
Defined.

Lemma command_status_is_ignored_witness :
  @coord_step failing_wait_runtime (SpamAwait (PObj 10))
              (@World failing_wait_runtime (Some "command_spam") false
                      good_host 0%nat [])
  = Some (SpamCheck,
          @World failing_wait_runtime (Some "command_spam") false
                 good_host 0%nat
                 [ECall (Meth (PObj 10) "wait") []
                        (Ret (PList [PInt (-22); PStr ""; PStr "rejected"]))])
  /\
  @coord_step short_wait_runtime (SpamAwait (PObj 10))
              (@World short_wait_runtime (Some "command_spam") false
                      good_host 0%nat [])
  = Some (Crashed
            (ValueError "not enough values to unpack (expected 3, got 2)"),
          @World short_wait_runtime (Some "command_spam") false
                 good_host 0%nat
                 [ECall (Meth (PObj 10) "wait") []
                        (Ret (PList [PInt 0; PStr ""]))]).
Proof.
  split.
  - pose proof (@command_status_is_ignored
                  failing_wait_runtime (PObj 10)
                  (@World failing_wait_runtime (Some "command_spam") false
                          good_host 0%nat [])
                  (PList [PInt (-22); PStr ""; PStr "rejected"]) good_host
                  eq_refl) as (H & _).
    exact (H (PInt (-22)) (PStr "") (PStr "rejected") eq_refl).
  - pose proof (@command_status_is_ignored
                  short_wait_runtime (PObj 10)
                  (@World short_wait_runtime (Some "command_spam") false
                          good_host 0%nat [])
                  (PList [PInt 0; PStr ""]) good_host
                  eq_refl) as (_ & H & _).
    apply (H [PInt 0; PStr ""] eq_refl). simpl. lia.
Defined.

Lemma no_disabled_module_is_IndexError_witness :
  fst (@handle_command allon_runtime "" (cmd "mgr self-test remote")
                       (@World allon_runtime None false good_host 0%nat []))
  = Raise (IndexError "list index out of range").
Proof.
  rewrite (@no_disabled_module_is_IndexError
             allon_runtime "" (cmd "mgr self-test remote")
             (@World allon_runtime None false good_host 0%nat [])
             (PList [PInt 0; PStr ""; PStr "Self-test OK"]) allon_mgr_map
             good_host good_host eq_refl eq_refl eq_refl eq_refl).
  reflexivity.
Defined.

Lemma finished_is_logged_after_osdmap_witness :
  exists pre,
    trace (snd (_self_test_osdmap
                  (emit (ELog "Running self-test procedure...")
                        (at_rest lossy_host))))
    = (pre ++ [ELog "Finished self-test procedure."])%list.
Proof.
  assert (Hos : _self_test_osdmap
                  (emit (ELog "Running self-test procedure...")
                        (at_rest lossy_host))
                = (Ret tt,
                   snd (_self_test_osdmap
                          (emit (ELog "Running self-test procedure...")
                                (at_rest lossy_host))))).
  { vm_compute. reflexivity. }
  pose proof (finished_is_logged_after_osdmap
                (at_rest lossy_host)
                (snd (_self_test_osdmap
                        (emit (ELog "Running self-test procedure...")
                              (at_rest lossy_host))))
                Hos) as (H & _).
  exact H.
Defined.
